(** * generic_processor: batching, sink discipline and termination

    A shallow embedding of [examples/generic_processor.py] and the
    properties of its batching loop.

    The Python function is

    [[
    def generic_processor(map_func, result_func, outpath, paths, batch_size=1000):
        f = bz2.BZ2File(outpath, "w")
        n = 0
        m = math.ceil(float(len(paths))/batch_size)
        logging.info("Script started")
        while (True):
            start = time.time()
            batch, paths = (paths[:batch_size], paths[batch_size:])
            n += 1
            logging.info("Starting batch {0}/{1}".format(n, m))
            feature_reader = FeatureReader(batch)
            results = feature_reader.multiprocessing(map_func)
            result_func(results, f)
            logging.info("Batch of {0} volumes finished in in {1}s".format(
                len(batch), time.time() - start))
            logging.debug("Output filesize is currently: {0}Gb".format(
                os.stat(outpath).st_size/(1024**3)))
            if len(paths) == 0:
                break
        logging.info("Script done")
        f.close()
    ]]

    Python lists are objects in a store, so that rebinding a name to a slice
    and mutating the caller's list are different things.  The file system,
    the wall clock and the sequence of calls made to the outside are part of
    the world the function runs in.  [while (True)] is a recursion on fuel:
    [OutOfFuel] stands for a loop that is still running.

    [FeatureReader], its [multiprocessing] method, [map_func] and
    [result_func] are parameters: functions that return or raise.  The batch
    size is any integer, as in Python: the slices follow Python for the
    negative ones, and the division that computes the total of batches
    raises for zero and for the integers that no float holds.  The output
    path is one that can be opened for writing.

    The file has the embedding first ([generic_processor]), then the same
    run as a function of values ([run]) with the proof that the code
    computes it ([generic_processor_eq]), then the properties: the shape of
    the batches, the discipline of the sink, the order of the calls, what an
    exception leaves behind, and when the loop ends. *)

From Stdlib Require Import ZArith Lia.
From Stdlib.Strings Require Byte.
From stdpp Require Import gmap strings list fin_maps.

Set Default Proof Using "Type".

(** ** Python integers, slices and the ceiling of a quotient *)

Module Py.

(** The index a slice bound [i] denotes in a sequence of [len] items: a
    negative bound counts from the end, and every bound is clamped to
    [0 .. len]. *)
Definition slice_bound (i : Z) (len : nat) : nat :=
  if (i <? 0)%Z
  then Z.to_nat (Z.max 0 (Z.of_nat len + i))
  else Z.to_nat (Z.min i (Z.of_nat len)).

(** [xs[:i]] *)
Definition slice_to {A} (xs : list A) (i : Z) : list A :=
  take (slice_bound i (length xs)) xs.

(** [xs[i:]] *)
Definition slice_from {A} (xs : list A) (i : Z) : list A :=
  drop (slice_bound i (length xs)) xs.

(** [math.ceil(float(a)/b)] for a [b <> 0] that a float holds (see
    [overflows] below).  The quotient of the two floats is
    exact enough for the ceiling to be the integer one as long as [a] is
    below 2^53, which the length of a list is. *)
Definition ceil_div (a b : Z) : Z := (- ((- a) / b))%Z.

(** The integers that no float holds.  [float(a)/b] converts the integer
    [b] to a float, to the nearest one; from [2^1024 - 2^970] on, in absolute
    value, the nearest would be [2^1024], past the largest float, and the
    conversion raises [OverflowError]. *)
Definition float_limit : Z := (2 ^ 1024 - 2 ^ 970)%Z.

Definition overflows (b : Z) : bool := (float_limit <=? Z.abs b)%Z.

End Py.

Arguments Py.overflows : simpl never.

(** ** Results of a computation *)

(** Exceptions: the two that the division of the function can raise, the
    one of [os.stat], the ones of the collaborators ([FeatureReader],
    [multiprocessing], [result_func]), and a name bound to no object, which
    Python excludes and the store allows. *)
Inductive exn (E : Type) : Type :=
| ZeroDivisionError
| OverflowError
| OSError
| NoSuchObject
| External (e : E).
Arguments ZeroDivisionError {E}.
Arguments OverflowError {E}.
Arguments OSError {E}.
Arguments NoSuchObject {E}.
Arguments External {E} e.

Inductive result (E A : Type) : Type :=
| Done (a : A)
| Raised (e : exn E)
| OutOfFuel.
Arguments Done {E A} a.
Arguments Raised {E A} e.
Arguments OutOfFuel {E A}.

(** ** The world *)

Inductive level := INFO | DEBUG.

(** The log records of the function, with the values they are formatted
    from.  [BatchFinished k stop start] stands for the message that shows
    [k] and the float [stop - start]; [OutputFilesize s] for the one that
    shows [s/(1024**3)]. *)
Inductive log_record :=
| ScriptStarted
| StartingBatch (n m : Z)
| BatchFinished (volumes : nat) (stop start : Z)
| OutputFilesize (st_size : Z)
| ScriptDone.

(** The address of a list object. *)
Abbreviation loc := nat.

Section World.

Context {Path R : Type}.

(** The calls that leave the function, in the order they are made.  A
    reduction is recorded with the sink as the call found it and as it left
    it. *)
Inductive event :=
| EvOpen (path : string)                  (* bz2.BZ2File(path, "w") *)
| EvLog (lvl : level) (msg : log_record)  (* logging.info, logging.debug *)
| EvReader (batch : list Path)            (* FeatureReader(batch) *)
| EvMap (batch : list Path)               (* feature_reader.multiprocessing(map_func) *)
| EvReduce (results : list R) (before after : list Byte.byte)
                                          (* result_func(results, f) *)
| EvClose (path : string).                (* f.close() *)

Record World := mkWorld {
  heap : list (list Path);             (* the list objects, by address *)
  fs : gmap string (list Byte.byte);   (* the files: their decompressed content *)
  clock : nat -> Z;                    (* the k-th reading of the wall clock *)
  ticks : nat;                         (* the readings taken so far *)
  trace : list event                   (* oldest first *)
}.

End World.
Arguments event : clear implicits.
Arguments World : clear implicits.

(** ** A state and exception monad over the world *)

Section Monad.

Context {Path R E : Type}.

Definition M (A : Type) : Type :=
  World Path R -> result E A * World Path R.

Definition ret {A} (a : A) : M A := fun w => (Done a, w).

Definition bind {A B} (c : M A) (k : A -> M B) : M B :=
  fun w =>
    match c w with
    | (Done a, w') => k a w'
    | (Raised e, w') => (Raised e, w')
    | (OutOfFuel, w') => (OutOfFuel, w')
    end.

Definition raise {A} (e : exn E) : M A := fun w => (Raised e, w).

Definition out_of_fuel {A} : M A := fun w => (OutOfFuel, w).

(** A call to a collaborator, which returns or raises. *)
Definition lift {A} (r : E + A) : M A :=
  match r with
  | inl e => raise (External e)
  | inr a => ret a
  end.

Definition emit (e : event Path R) : M unit :=
  fun w => (Done tt,
            mkWorld (heap w) (fs w) (clock w) (ticks w) (trace w ++ [e])).

(** The object a name is bound to. *)
Definition deref (l : loc) : M (list Path) :=
  fun w =>
    match heap w !! l with
    | Some xs => (Done xs, w)
    | None => (Raised NoSuchObject, w)
    end.

(** A new list object, after the others. *)
Definition alloc (xs : list Path) : M loc :=
  fun w => (Done (length (heap w)),
            mkWorld (heap w ++ [xs]) (fs w) (clock w) (ticks w) (trace w)).

End Monad.
Arguments M : clear implicits.

#[global] Instance M_ret {Path R E} : MRet (M Path R E) := @ret Path R E.
#[global] Instance M_bind {Path R E} : MBind (M Path R E) :=
  fun A B k c => bind c k.

(** ** The function *)

Section GenericProcessor.

(** Identifiers, per-record results and the exceptions of the
    collaborators. *)
Context {Path R E : Type}.

(** The collaborators.  [FeatureReader] and its [multiprocessing] method
    come from the [htrc_features] package; [map_func] and [result_func] are
    the caller's.  A call returns or raises.  [result_func] gets the results
    and the open sink, and leaves the sink with some content whether it
    returns or raises. *)
Context {Reader MapFunc : Type}.
Variable FeatureReader : list Path -> E + Reader.
Variable multiprocessing : Reader -> MapFunc -> E + list R.

(** [os.stat(path).st_size] of a compressed file, from what was written
    through the handle. *)
Variable st_size : list Byte.byte -> Z.

Abbreviation W := (World Path R).
Abbreviation Proc := (M Path R E).

(** [bz2.BZ2File(path, "w")]: the file is created or truncated; the handle
    is the path. *)
Definition bz2_open_w (path : string) : Proc string :=
  fun w => (Done path,
            mkWorld (heap w) (<[path := []]> (fs w)) (clock w) (ticks w)
                    (trace w ++ [EvOpen path])).

(** [f.close()] *)
Definition bz2_close (f : string) : Proc unit := emit (EvClose f).

(** [time.time()] *)
Definition time_time : Proc Z :=
  fun w => (Done (clock w (ticks w)),
            mkWorld (heap w) (fs w) (clock w) (S (ticks w)) (trace w)).

Definition logging_info (msg : log_record) : Proc unit := emit (EvLog INFO msg).
Definition logging_debug (msg : log_record) : Proc unit := emit (EvLog DEBUG msg).

(** [len(l)] *)
Definition len (l : loc) : Proc nat := xs ← deref l; mret (length xs).

(** [l[:i]] and [l[i:]]: a slice of a list is a new list. *)
Definition slice_to (l : loc) (i : Z) : Proc loc :=
  xs ← deref l; alloc (Py.slice_to xs i).
Definition slice_from (l : loc) (i : Z) : Proc loc :=
  xs ← deref l; alloc (Py.slice_from xs i).

(** [FeatureReader(batch)]: the reader, with the batch it is over. *)
Definition new_FeatureReader (batch : loc) : Proc (Reader * list Path) :=
  xs ← deref batch;
  emit (EvReader xs);;
  rd ← lift (FeatureReader xs);
  mret (rd, xs).

(** [feature_reader.multiprocessing(map_func)] *)
Definition call_multiprocessing (feature_reader : Reader * list Path)
    (map_func : MapFunc) : Proc (list R) :=
  emit (EvMap feature_reader.2);;
  lift (multiprocessing feature_reader.1 map_func).

(** [result_func(results, f)]: the call finds the content of the file of
    the handle and leaves another, and returns or raises. *)
Definition call_result_func
    (result_func : list R -> list Byte.byte -> list Byte.byte * option E)
    (results : list R) (f : string) : Proc unit :=
  fun w =>
    let before := default [] (fs w !! f) in
    let '(after, raised) := result_func results before in
    let w' := mkWorld (heap w) (<[f := after]> (fs w)) (clock w) (ticks w)
                      (trace w ++ [EvReduce results before after]) in
    match raised with
    | Some e => (Raised (External e), w')
    | None => (Done tt, w')
    end.

(** [os.stat(path).st_size] *)
Definition os_stat_st_size (path : string) : Proc Z :=
  fun w =>
    match fs w !! path with
    | Some content => (Done (st_size content), w)
    | None => (Raised OSError, w)
    end.

(** [math.ceil(float(a)/b)]: the division first converts [b] to a float,
    which raises [OverflowError] for an integer no float holds, and then
    raises [ZeroDivisionError] for zero. *)
Definition math_ceil_div (a : nat) (b : Z) : Proc Z :=
  if Py.overflows b then raise OverflowError
  else if (b =? 0)%Z then raise ZeroDivisionError
  else mret (Py.ceil_div (Z.of_nat a) b).

Section Run.

Variable map_func : MapFunc.
Variable result_func : list R -> list Byte.byte -> list Byte.byte * option E.
Variable outpath : string.
Variable batch_size : Z.

(** One pass through the body of the loop, up to the test that ends it: the
    new [n] and the new [paths]. *)
Definition loop_body (f : string) (m n : Z) (paths : loc) : Proc (Z * loc) :=
  start ← time_time;
  batch ← slice_to paths batch_size;
  paths ← slice_from paths batch_size;
  let n := (n + 1)%Z in
  logging_info (StartingBatch n m);;
  feature_reader ← new_FeatureReader batch;
  results ← call_multiprocessing feature_reader map_func;
  call_result_func result_func results f;;
  volumes ← len batch;
  stop ← time_time;
  logging_info (BatchFinished volumes stop start);;
  size ← os_stat_st_size outpath;
  logging_debug (OutputFilesize size);;
  mret (n, paths).

(** [while (True): ...; if len(paths) == 0: break] *)
Fixpoint while_true (fuel : nat) (f : string) (m n : Z) (paths : loc)
  : Proc unit :=
  match fuel with
  | O => out_of_fuel
  | S fuel =>
      '(n, paths) ← loop_body f m n paths;
      k ← len paths;
      if (k =? 0)%nat then mret tt
      else while_true fuel f m n paths
  end.

Definition generic_processor (paths : loc) (fuel : nat) : Proc unit :=
  f ← bz2_open_w outpath;
  let n := 0%Z in
  k ← len paths;
  m ← math_ceil_div k batch_size;
  logging_info ScriptStarted;;
  while_true fuel f m n paths;;
  logging_info ScriptDone;;
  bz2_close f.

(** *** What a run does, on values

    The same loop as a function of the content of the list, the content of
    the sink and the clock: the events it adds, the sink it leaves and the
    clock readings it takes.  [loop_body_eq], [while_true_eq] and
    [generic_processor_eq] show that the code above computes exactly this;
    the properties of a run are then proved on values. *)

Record outcome (A : Type) := mkOutcome {
  res : result E A;           (* how it ended *)
  evs : list (event Path R);  (* the events added *)
  sink : list Byte.byte;      (* the sink at the end *)
  tks : nat;                  (* clock readings at the end *)
  objs : list (list Path)     (* the list objects made *)
}.
Arguments mkOutcome {A}.
Arguments res {A}.
Arguments evs {A}.
Arguments sink {A}.
Arguments tks {A}.
Arguments objs {A}.

(** One pass over the remaining list [xs], with [c] in the sink. *)
Definition pass (m n : Z) (clk : nat -> Z) (t : nat)
    (xs : list Path) (c : list Byte.byte) : outcome (list Path) :=
  let b := Py.slice_to xs batch_size in
  let rest := Py.slice_from xs batch_size in
  let e1 := [EvLog INFO (StartingBatch (n + 1) m); EvReader b] in
  match FeatureReader b with
  | inl e => mkOutcome (Raised (External e)) e1 c (S t) [b; rest]
  | inr rd =>
      match multiprocessing rd map_func with
      | inl e =>
          mkOutcome (Raised (External e)) (e1 ++ [EvMap b]) c (S t) [b; rest]
      | inr rs =>
          let '(c', raised) := result_func rs c in
          let e2 := e1 ++ [EvMap b; EvReduce rs c c'] in
          match raised with
          | Some e => mkOutcome (Raised (External e)) e2 c' (S t) [b; rest]
          | None =>
              mkOutcome (Done rest)
                (e2 ++ [EvLog INFO (BatchFinished (length b) (clk (S t)) (clk t));
                        EvLog DEBUG (OutputFilesize (st_size c'))])
                c' (S (S t)) [b; rest]
          end
      end
  end.

Fixpoint passes (fuel : nat) (m n : Z) (clk : nat -> Z) (t : nat)
    (xs : list Path) (c : list Byte.byte) : outcome unit :=
  match fuel with
  | O => mkOutcome OutOfFuel [] c t []
  | S fuel =>
      let o := pass m n clk t xs c in
      match res o with
      | Done rest =>
          if (length rest =? 0)%nat
          then mkOutcome (Done tt) (evs o) (sink o) (tks o) (objs o)
          else
            let o' := passes fuel m (n + 1) clk (tks o) rest (sink o) in
            mkOutcome (res o') (evs o ++ evs o') (sink o') (tks o')
                      (objs o ++ objs o')
      | Raised e => mkOutcome (Raised e) (evs o) (sink o) (tks o) (objs o)
      | OutOfFuel => mkOutcome OutOfFuel (evs o) (sink o) (tks o) (objs o)
      end
  end.

(** What the function does after the loop, if the loop is left by [break]. *)
Definition epilogue (r : result E unit) : list (event Path R) :=
  match r with
  | Done _ => [EvLog INFO ScriptDone; EvClose outpath]
  | _ => []
  end.

(** The whole run over the list [xs]. *)
Definition run (fuel : nat) (clk : nat -> Z) (t : nat) (xs : list Path)
  : outcome unit :=
  if Py.overflows batch_size
  then mkOutcome (Raised OverflowError) [EvOpen outpath] [] t []
  else if (batch_size =? 0)%Z
  then mkOutcome (Raised ZeroDivisionError) [EvOpen outpath] [] t []
  else
    let m := Py.ceil_div (Z.of_nat (length xs)) batch_size in
    let o := passes fuel m 0 clk t xs [] in
    mkOutcome (res o)
      (EvOpen outpath :: EvLog INFO ScriptStarted :: evs o ++ epilogue (res o))
      (sink o) (tks o) (objs o).

(** The world a run leaves: the new list objects of [o] after those of [w],
    the sink of [o] at [outpath], the events of [o] after those of [w]. *)
Definition after {A} (w : W) (o : outcome A) : W :=
  mkWorld (heap w ++ objs o) (<[outpath := sink o]> (fs w)) (clock w) (tks o)
          (trace w ++ evs o).

End Run.

End GenericProcessor.

Arguments outcome : clear implicits.
Arguments mkOutcome {Path R E A}.
Arguments res {Path R E A}.
Arguments evs {Path R E A}.
Arguments sink {Path R E A}.
Arguments tks {Path R E A}.
Arguments objs {Path R E A}.

(** The default of [batch_size]. *)
Definition default_batch_size : Z := 1000.

(** ** Reading a trace *)

Section Traces.

Context {Path R : Type}.

(** The batches handed to [FeatureReader], oldest first. *)
Definition readers (tr : list (event Path R)) : list (list Path) :=
  omap (fun e => match e with EvReader b => Some b | _ => None end) tr.

(** The batches dispatched to the parallel map. *)
Definition maps (tr : list (event Path R)) : list (list Path) :=
  omap (fun e => match e with EvMap b => Some b | _ => None end) tr.

(** The calls of [result_func]: the results, and the sink before and after. *)
Definition reduces (tr : list (event Path R))
  : list (list R * list Byte.byte * list Byte.byte) :=
  omap (fun e => match e with
                 | EvReduce rs before after => Some (rs, before, after)
                 | _ => None
                 end) tr.

Definition opens (tr : list (event Path R)) : list string :=
  omap (fun e => match e with EvOpen p => Some p | _ => None end) tr.

Definition closes (tr : list (event Path R)) : list string :=
  omap (fun e => match e with EvClose p => Some p | _ => None end) tr.

(** The counts announced by the "Starting batch n/m" records. *)
Definition announced (tr : list (event Path R)) : list (Z * Z) :=
  omap (fun e => match e with
                 | EvLog INFO (StartingBatch n m) => Some (n, m)
                 | _ => None
                 end) tr.

(** One batch at a time: when a reader is built every earlier batch has been
    read, mapped and reduced; when a map is dispatched its reader is the only
    call under way; when a reduction is made its map is. *)
Definition in_turn (tr : list (event Path R)) : Prop :=
  forall pre e post, tr = pre ++ e :: post ->
    match e with
    | EvReader _ =>
        length (readers pre) = length (reduces pre)
        /\ length (maps pre) = length (reduces pre)
    | EvMap _ =>
        length (readers pre) = S (length (reduces pre))
        /\ length (maps pre) = length (reduces pre)
    | EvReduce _ _ _ =>
        length (readers pre) = S (length (reduces pre))
        /\ length (maps pre) = S (length (reduces pre))
    | _ => True
    end.

End Traces.

(** ** Collaborators that behave *)

Section Contracts.

Context {Path R E Reader MapFunc : Type}.
Variable FeatureReader : list Path -> E + Reader.
Variable multiprocessing : Reader -> MapFunc -> E + list R.
Variable map_func : MapFunc.
Variable result_func : list R -> list Byte.byte -> list Byte.byte * option E.

(** No collaborator ever raises. *)
Definition no_raise : Prop :=
  (forall b, exists rd, FeatureReader b = inr rd)
  /\ (forall rd, exists rs, multiprocessing rd map_func = inr rs)
  /\ (forall rs c, (result_func rs c).2 = None).

(** The sink after the batches [bs] have been read, mapped and reduced one
    after the other from the sink [c], when none of these calls raises. *)
Fixpoint completed (bs : list (list Path)) (c : list Byte.byte)
  : option (list Byte.byte) :=
  match bs with
  | [] => Some c
  | b :: bs =>
      match FeatureReader b with
      | inl _ => None
      | inr rd =>
          match multiprocessing rd map_func with
          | inl _ => None
          | inr rs =>
              match result_func rs c with
              | (c', None) => completed bs c'
              | (_, Some _) => None
              end
          end
      end
  end.

(** The sink is written by the calls of [result_func] and by nothing else:
    the first call finds [c], each call leaves what [result_func] computes
    from what it found, the next call finds what the previous one left, and
    [c'] is what the last one left. *)
Fixpoint written_by (c : list Byte.byte)
    (calls : list (list R * list Byte.byte * list Byte.byte))
    (c' : list Byte.byte) : Prop :=
  match calls with
  | [] => c' = c
  | (rs, before, after) :: calls =>
      before = c /\ after = (result_func rs c).1 /\ written_by after calls c'
  end.

End Contracts.

(** ** Does a run end? *)

Section Termination.

Context {Path R E : Type}.

(** A computation on fuel never ends from the world [w]. *)
Definition loops_forever (c : nat -> M Path R E unit) (w : World Path R) : Prop :=
  forall fuel, (c fuel w).1 = OutOfFuel.

(** It ends, by a return or by an exception. *)
Definition terminates (c : nat -> M Path R E unit) (w : World Path R) : Prop :=
  exists fuel, (c fuel w).1 <> OutOfFuel.

End Termination.

(** ** Reading the log *)

Section Logs.

Context {Path R : Type}.

(** The sizes shown by the "Batch of k volumes finished" records. *)
Definition finished (tr : list (event Path R)) : list nat :=
  omap (fun e => match e with
                 | EvLog INFO (BatchFinished k _ _) => Some k
                 | _ => None
                 end) tr.

(** The sizes shown by the "Output filesize is currently" records. *)
Definition filesizes (tr : list (event Path R)) : list Z :=
  omap (fun e => match e with
                 | EvLog DEBUG (OutputFilesize s) => Some s
                 | _ => None
                 end) tr.

(** The results handed to [result_func], call after call. *)
Definition reduced (tr : list (event Path R)) : list (list R) :=
  (reduces tr).*1.*1.

End Logs.

(** ** An instance to run *)

Module Demo.

(** Modelled from the spec: [FeatureReader] and its [multiprocessing] method
    belong to the [htrc_features] package, whose code is not in the file of
    the example.  The reader over a batch resolves every identifier; the
    parallel map applies the mapping function to every record of the batch,
    returns the collection of the results in the order of the batch, and
    raises when the mapping function raises for a record. *)
Definition FeatureReader (batch : list nat) : string + list nat := inr batch.

Fixpoint multiprocessing (rd : list nat) (map_func : nat -> string + Byte.byte)
  : string + list Byte.byte :=
  match rd with
  | [] => inr []
  | p :: rd =>
      match map_func p with
      | inl e => inl e
      | inr r =>
          match multiprocessing rd map_func with
          | inl e => inl e
          | inr rs => inr (r :: rs)
          end
      end
  end.

(** The size of the file: one byte on disk for each byte written. *)
Definition st_size (content : list Byte.byte) : Z := Z.of_nat (length content).

(** A mapping function that returns for every record. *)
Definition star (p : nat) : string + Byte.byte := inr Byte.x2a.

(** A mapping function that raises for the record [bad]. *)
Definition corrupt (bad : nat) (p : nat) : string + Byte.byte :=
  if (p =? bad)%nat then inl "corrupt record"%string else inr Byte.x2a.

(** A reducer that appends the results to the sink. *)
Definition append (rs : list Byte.byte) (c : list Byte.byte)
  : list Byte.byte * option string := (c ++ rs, None).

(** A world whose only list is [paths], at address 0, with an empty file
    system, an empty trace and a clock that shows its number of readings. *)
Definition world (paths : list nat) : World nat Byte.byte :=
  mkWorld [paths] ∅ (fun k => Z.of_nat k) 0 [].

Definition exec (map_func : nat -> string + Byte.byte) (outpath : string)
    (paths : list nat) (batch_size : Z) (fuel : nat)
  : result string unit * World nat Byte.byte :=
  generic_processor FeatureReader multiprocessing st_size map_func append
                    outpath batch_size 0%nat fuel (world paths).

(** A reader that raises when the record [bad] is in its batch. *)
Definition picky_reader (bad : nat) (batch : list nat) : string + list nat :=
  if existsb (Nat.eqb bad) batch then inl "no such volume"%string
  else inr batch.

(** A reducer that appends to a sink of at most [limit] bytes: it writes
    what fits and raises when something is left. *)
Definition append_upto (limit : nat) (rs : list Byte.byte) (c : list Byte.byte)
  : list Byte.byte * option string :=
  if (length c + length rs <=? limit)%nat then (c ++ rs, None)
  else (c ++ take (limit - length c) rs, Some "disk full"%string).

(** A mapping function that gives the byte of the identifier, and a parallel
    map for it. *)
Definition byte_of (p : nat) : Byte.byte :=
  default Byte.x00 (Byte.of_nat (p mod 256)).

Definition map_bytes (rd : list nat) (f : nat -> Byte.byte)
  : string + list Byte.byte := inr (f <$> rd).

End Demo.

(** ** Slices *)

Section Slices.

Context {A : Type}.
Implicit Types (xs : list A) (i : Z).

Lemma slice_bound_le i len : Py.slice_bound i len <= len.
Proof. unfold Py.slice_bound. destruct (Z.ltb_spec i 0); lia. Qed.

Lemma slice_bound_nonneg i len :
  (0 <= i)%Z -> Py.slice_bound i len = Nat.min (Z.to_nat i) len.
Proof. intros Hi. unfold Py.slice_bound. destruct (Z.ltb_spec i 0); lia. Qed.

(** A slice and the rest make the list again, whatever the bound. *)
Lemma slice_to_from xs i : Py.slice_to xs i ++ Py.slice_from xs i = xs.
Proof. apply take_drop. Qed.

Lemma slice_to_nonneg xs i :
  (0 <= i)%Z -> Py.slice_to xs i = take (Z.to_nat i) xs.
Proof.
  intros Hi. unfold Py.slice_to. rewrite slice_bound_nonneg by done.
  destruct (Nat.le_ge_cases (Z.to_nat i) (length xs)).
  - by rewrite Nat.min_l.
  - rewrite Nat.min_r by done. by rewrite !take_ge.
Qed.

Lemma slice_from_nonneg xs i :
  (0 <= i)%Z -> Py.slice_from xs i = drop (Z.to_nat i) xs.
Proof.
  intros Hi. unfold Py.slice_from. rewrite slice_bound_nonneg by done.
  destruct (Nat.le_ge_cases (Z.to_nat i) (length xs)).
  - by rewrite Nat.min_l.
  - rewrite Nat.min_r by done. by rewrite !drop_ge.
Qed.

Lemma slice_to_nil i : Py.slice_to (@nil A) i = [].
Proof. unfold Py.slice_to. apply take_nil. Qed.

Lemma slice_from_nil i : Py.slice_from (@nil A) i = [].
Proof. unfold Py.slice_from. apply drop_nil. Qed.

(** [xs[:0]] is empty and [xs[0:]] is [xs]. *)
Lemma slice_to_0 xs : Py.slice_to xs 0 = [].
Proof. by rewrite slice_to_nonneg. Qed.

Lemma slice_from_0 xs : Py.slice_from xs 0 = xs.
Proof. by rewrite slice_from_nonneg. Qed.

Lemma length_slice_from xs i :
  length (Py.slice_from xs i) = length xs - Py.slice_bound i (length xs).
Proof. apply length_drop. Qed.

(** With a bound of zero or less, what remains of a non-empty list is not
    empty. *)
Lemma slice_from_nonpos xs i :
  (i <= 0)%Z -> xs <> [] -> Py.slice_from xs i <> [].
Proof.
  intros Hi Hxs Hnil. apply (f_equal length) in Hnil.
  rewrite length_slice_from in Hnil. cbn in Hnil.
  assert (0 < length xs) by (destruct xs; cbn; [done | lia]).
  unfold Py.slice_bound in Hnil. destruct (Z.ltb_spec i 0); lia.
Qed.


Lemma slice_from_pos_shorter xs i :
  (0 < i)%Z -> xs <> [] -> length (Py.slice_from xs i) < length xs.
Proof.
  intros Hi Hxs. rewrite length_slice_from.
  assert (0 < length xs) by (destruct xs; cbn; [done | lia]).
  rewrite slice_bound_nonneg by lia. lia.
Qed.

End Slices.

(** ** The ceiling of a quotient *)

Lemma ceil_div_0 b : Py.ceil_div 0 b = 0%Z.
Proof. unfold Py.ceil_div. cbn. by rewrite Zdiv_0_l. Qed.

(** For a positive divisor it is the least integer whose product with the
    divisor reaches the dividend. *)
Lemma ceil_div_spec a b :
  (0 < b)%Z -> ((Py.ceil_div a b - 1) * b < a <= Py.ceil_div a b * b)%Z.
Proof.
  intros Hb. unfold Py.ceil_div.
  pose proof (Z.div_mod (- a) b ltac:(lia)) as Hdm.
  pose proof (Z.mod_pos_bound (- a) b Hb) as Hmod. nia.
Qed.

Lemma ceil_div_unique a b q :
  (0 < b)%Z -> ((q - 1) * b < a <= q * b)%Z -> Py.ceil_div a b = q.
Proof.
  intros Hb Hq. pose proof (ceil_div_spec a b Hb) as Hc. nia.
Qed.

Lemma ceil_div_small a b : (0 < a <= b)%Z -> Py.ceil_div a b = 1%Z.
Proof. intros H. apply ceil_div_unique; lia. Qed.

Lemma ceil_div_step a b :
  (0 < b)%Z -> Py.ceil_div a b = (1 + Py.ceil_div (a - b) b)%Z.
Proof.
  intros Hb. pose proof (ceil_div_spec (a - b) b Hb) as Hc.
  apply ceil_div_unique; [done|]. nia.
Qed.

(** ** The code computes [pass], [passes] and [run] *)

Section Denotation.

Context {Path R E Reader MapFunc : Type}.
Variable FeatureReader : list Path -> E + Reader.
Variable multiprocessing : Reader -> MapFunc -> E + list R.
Variable st_size : list Byte.byte -> Z.
Variable map_func : MapFunc.
Variable result_func : list R -> list Byte.byte -> list Byte.byte * option E.
Variable outpath : string.
Variable batch_size : Z.

Abbreviation W := (World Path R).
Abbreviation pass_ :=
  (pass FeatureReader multiprocessing st_size map_func result_func batch_size).
Abbreviation passes_ :=
  (passes FeatureReader multiprocessing st_size map_func result_func batch_size).
Abbreviation run_ :=
  (run FeatureReader multiprocessing st_size map_func result_func outpath
       batch_size).
Abbreviation generic_processor_ :=
  (generic_processor FeatureReader multiprocessing st_size map_func result_func
                     outpath batch_size).
Abbreviation while_true_ :=
  (while_true FeatureReader multiprocessing st_size map_func result_func
              outpath batch_size).
Abbreviation loop_body_ :=
  (loop_body FeatureReader multiprocessing st_size map_func result_func
             outpath batch_size).

(** One pass of the code, in a world where [paths] is bound to the list
    [xs] and the output file holds [c]. *)
Lemma loop_body_eq m n l (w : W) xs c :
  heap w !! l = Some xs ->
  fs w !! outpath = Some c ->
  let o := pass_ m n (clock w) (ticks w) xs c in
  loop_body_ outpath m n l w
  = (match res o with
     | Done _ => Done ((n + 1)%Z, S (length (heap w)))
     | Raised e => Raised e
     | OutOfFuel => OutOfFuel
     end,
     after outpath w o).
Proof.
  intros Hl Hc. destruct w as [h files clk t tr]. simpl in *.
  assert (Hb : forall r, ((h ++ [Py.slice_to xs batch_size]) ++ [r]) !! length h
                       = Some (Py.slice_to xs batch_size)).
  { intros r. rewrite <- app_assoc. apply list_lookup_middle. reflexivity. }
  unfold loop_body, pass, after; cbn.
  unfold mbind, M_bind, bind, time_time, slice_to, slice_from, deref, alloc,
    logging_info, logging_debug, emit, new_FeatureReader, call_multiprocessing,
    call_result_func, len, os_stat_st_size, lift, raise, mret, M_ret, ret,
    mbind, M_bind, bind; cbn.
  rewrite Hl; cbn. rewrite (lookup_app_l_Some _ _ _ _ Hl); cbn.
  unfold deref at 1; cbn. rewrite Hb; cbn.
  destruct (FeatureReader (Py.slice_to xs batch_size)) as [e|rd]; cbn.
  { rewrite insert_id by done. by rewrite <- !app_assoc. }
  destruct (multiprocessing rd map_func) as [e|rs]; cbn.
  { rewrite insert_id by done. by rewrite <- !app_assoc. }
  rewrite Hc; cbn.
  destruct (result_func rs c) as [c' [e|]]; cbn.
  { by rewrite <- !app_assoc. }
  unfold deref; cbn. rewrite Hb; cbn.
  rewrite lookup_insert_eq; cbn.
  rewrite length_app, Nat.add_comm; cbn.
  by rewrite <- !app_assoc.
Qed.

Lemma pass_res m n clk t xs c :
  let o := pass_ m n clk t xs c in
  res o = Done (Py.slice_from xs batch_size)
  \/ exists e, res o = Raised (External e).
Proof.
  unfold pass.
  destruct (FeatureReader _) as [e|rd]; cbn; [by eauto|].
  destruct (multiprocessing rd map_func) as [e|rs]; cbn; [by eauto|].
  destruct (result_func rs c) as [c' [e|]]; cbn; by eauto.
Qed.

Lemma after_after {A B} (w : W) (o : outcome Path R E A)
    (o' : outcome Path R E B) :
  after outpath (after outpath w o) o'
  = after outpath w
      (mkOutcome (res o') (evs o ++ evs o') (sink o') (tks o')
                 (objs o ++ objs o')).
Proof.
  unfold after; cbn. by rewrite insert_insert_eq, <- !app_assoc.
Qed.

Lemma while_true_eq fuel : forall m n l (w : W) xs c,
  heap w !! l = Some xs ->
  fs w !! outpath = Some c ->
  while_true_ fuel outpath m n l w
  = (res (passes_ fuel m n (clock w) (ticks w) xs c),
     after outpath w (passes_ fuel m n (clock w) (ticks w) xs c)).
Proof.
  induction fuel as [|fuel IH]; intros m n l w xs c Hl Hc.
  - destruct w; cbn. unfold out_of_fuel, after; cbn.
    by rewrite !app_nil_r, insert_id.
  - cbn [while_true passes].
    unfold mbind at 1, M_bind at 1, bind at 1.
    rewrite (loop_body_eq m n l w xs c Hl Hc).
    set (o := pass_ m n (clock w) (ticks w) xs c).
    assert (Hobjs : objs o = [Py.slice_to xs batch_size; Py.slice_from xs batch_size]).
    { unfold o, pass. destruct (FeatureReader _); [done|].
      destruct (multiprocessing _ _); [done|].
      by destruct (result_func _ _) as [? [|]]. }
    destruct (pass_res m n (clock w) (ticks w) xs c) as [Hd|[e He]];
      fold o in Hd || fold o in He.
    + rewrite Hd.
      set (r := Py.slice_from xs batch_size).
      assert (Hr : heap (after outpath w o) !! S (length (heap w)) = Some r).
      { cbn. rewrite Hobjs, lookup_app_r by lia.
        by replace (S (length (heap w)) - length (heap w)) with 1 by lia. }
      assert (Hs : fs (after outpath w o) !! outpath = Some (sink o)).
      { cbn. apply lookup_insert_eq. }
      unfold mbind at 1, M_bind at 1, bind at 1, len at 1.
      unfold mbind at 1, M_bind at 1, bind at 1, deref at 1.
      rewrite Hr. cbn [mret M_ret ret].
      destruct (length r =? 0)%nat eqn:Hz; [reflexivity|].
      rewrite (IH m (n + 1)%Z (S (length (heap w))) _ r (sink o) Hr Hs).
      cbn [clock ticks after]. f_equal.
      change (mkWorld (heap w ++ objs o) (<[outpath:=sink o]> (fs w)) (clock w)
                (tks o) (trace w ++ evs o))
        with (after outpath w o).
      apply after_after.
    + rewrite He. reflexivity.
Qed.

(** The code of [generic_processor] computes [run]. *)
Theorem generic_processor_eq fuel l (w : W) xs :
  heap w !! l = Some xs ->
  generic_processor_ l fuel w
  = (res (run_ fuel (clock w) (ticks w) xs),
     after outpath w (run_ fuel (clock w) (ticks w) xs)).
Proof.
  intros Hl. unfold generic_processor, run.
  unfold mbind at 1, M_bind at 1, bind at 1, bz2_open_w at 1.
  unfold mbind at 1, M_bind at 1, bind at 1, len at 1.
  unfold mbind at 1, M_bind at 1, bind at 1, deref at 1.
  cbn [heap]. rewrite Hl. cbn [mret M_ret ret].
  unfold mbind at 1, M_bind at 1, bind at 1, math_ceil_div at 1.
  destruct (Py.overflows batch_size).
  { unfold raise, after; cbn. by rewrite app_nil_r. }
  destruct (batch_size =? 0)%Z.
  { unfold raise, after; cbn. by rewrite app_nil_r. }
  cbn [mret M_ret ret].
  unfold mbind at 1, M_bind at 1, bind at 1, logging_info at 1, emit at 1.
  cbn [heap fs clock ticks trace].
  set (m := Py.ceil_div (Z.of_nat (length xs)) batch_size).
  set (w2 := mkWorld _ _ _ _ _).
  unfold mbind at 1, M_bind at 1, bind at 1.
  rewrite (while_true_eq fuel m 0%Z l w2 xs [] Hl) by apply lookup_insert_eq.
  cbn [clock ticks w2].
  set (o := passes_ fuel m 0%Z (clock w) (ticks w) xs []).
  destruct (res o) as [[]|e|]; unfold after; cbn;
    unfold mbind, M_bind, bind, logging_info, bz2_close, emit; cbn;
    rewrite insert_insert_eq, <- ?app_assoc, ?app_nil_r; reflexivity.
Qed.

(** ** Properties of the passes, on values *)

(** The four ways a pass can go. *)
Ltac pass_cases :=
  unfold pass;
  destruct (FeatureReader _) as [?e|?rd] eqn:?Hfr;
  [| destruct (multiprocessing _ _) as [?e|?rs] eqn:?Hmp;
     [| destruct (result_func _ _) as [?c' [?e|]] eqn:?Hrf ] ];
  cbn.

(** Induction on the fuel of [passes], with one pass unfolded: no fuel, the
    reader raises, the map raises, the reducer raises, the last pass, a pass
    followed by others. *)
Ltac passes_ind fuel IH :=
  induction fuel as [|fuel IH]; intros m n clk t xs c; cbn [passes];
  [ cbn | pass_cases; [ | | | destruct (length _ =? 0)%nat eqn:?Hlen; cbn ] ].

Lemma passes_opens_closes fuel : forall m n clk t xs c,
  opens (evs (passes_ fuel m n clk t xs c)) = []
  /\ closes (evs (passes_ fuel m n clk t xs c)) = [].
Proof.
  passes_ind fuel IH; try done. apply IH.
Qed.

Lemma passes_written_by fuel : forall m n clk t xs c,
  written_by result_func c (reduces (evs (passes_ fuel m n clk t xs c)))
             (sink (passes_ fuel m n clk t xs c)).
Proof.
  passes_ind fuel IH; try done; rewrite Hrf; cbn; repeat split. apply IH.
Qed.

(** Calls are counted: a reduction for every map that returned, a map for
    every reader that was built, and at most one batch under way. *)
Lemma passes_counts fuel : forall m n clk t xs c,
  length (reduces (evs (passes_ fuel m n clk t xs c)))
    <= length (maps (evs (passes_ fuel m n clk t xs c)))
  /\ length (maps (evs (passes_ fuel m n clk t xs c)))
    <= length (readers (evs (passes_ fuel m n clk t xs c)))
  /\ length (readers (evs (passes_ fuel m n clk t xs c)))
    <= S (length (reduces (evs (passes_ fuel m n clk t xs c))))
  /\ (res (passes_ fuel m n clk t xs c) = Done tt ->
      maps (evs (passes_ fuel m n clk t xs c))
        = readers (evs (passes_ fuel m n clk t xs c))
      /\ length (reduces (evs (passes_ fuel m n clk t xs c)))
        = length (readers (evs (passes_ fuel m n clk t xs c)))).
Proof.
  passes_ind fuel IH; try (repeat split; (lia || done)).
  destruct (IH m (n + 1)%Z clk (S (S t)) (Py.slice_from xs batch_size) c')
    as (H1 & H2 & H3 & H4).
  unfold reduces, maps, readers in H1, H2, H3, H4.
  split; [lia|]. split; [lia|]. split; [lia|].
  intros Hd. destruct (H4 Hd) as [-> ->]. done.
Qed.

(** What the batches are: the pieces of the list, in its order. *)
Lemma passes_concat fuel : forall m n clk t xs c,
  exists rest,
    concat (readers (evs (passes_ fuel m n clk t xs c))) ++ rest = xs
    /\ (res (passes_ fuel m n clk t xs c) = Done tt -> rest = []).
Proof.
  passes_ind fuel IH;
    try (exists (Py.slice_from xs batch_size);
         rewrite app_nil_r; split; [apply take_drop | done]).
  - exists xs. done.
  - exists (Py.slice_from xs batch_size).
    rewrite app_nil_r. split; [apply take_drop |].
    intros _. by apply Nat.eqb_eq, nil_length_inv in Hlen.
  - destruct (IH m (n + 1)%Z clk (S (S t)) (Py.slice_from xs batch_size) c')
      as (rest & Hc & Hd).
    exists rest. split; [|done]. unfold readers in Hc.
    rewrite <- app_assoc, Hc. apply take_drop.
Qed.

Lemma passes_maps_prefix fuel : forall m n clk t xs c,
  maps (evs (passes_ fuel m n clk t xs c))
    `prefix_of` readers (evs (passes_ fuel m n clk t xs c)).
Proof.
  passes_ind fuel IH; try done; try apply prefix_nil.
  apply prefix_cons, IH.
Qed.

(** With a positive batch size the k-th batch is the k-th piece of
    [batch_size] items of the list. *)
Lemma passes_readers_lookup fuel : forall m n clk t xs c,
  (0 < batch_size)%Z ->
  forall k bk,
  readers (evs (passes_ fuel m n clk t xs c)) !! k = Some bk ->
  bk = take (Z.to_nat batch_size) (drop (k * Z.to_nat batch_size) xs).
Proof.
  passes_ind fuel IH; intros HB k bk Hk; try done;
    try (destruct k as [|k]; [|done]; cbn in *; simplify_eq;
         apply slice_to_nonneg; lia).
  destruct k as [|k]; cbn in *.
  - simplify_eq. apply slice_to_nonneg; lia.
  - apply IH in Hk; [|done]. rewrite Hk.
    rewrite slice_from_nonneg, drop_drop by lia. done.
Qed.


(** The passes raise nothing of their own. *)
Lemma passes_raised fuel : forall m n clk t xs c e0,
  res (passes_ fuel m n clk t xs c) = Raised e0 -> exists e', e0 = External e'.
Proof.
  passes_ind fuel IH; intros e0 He0; try done; simplify_eq; by eauto.
Qed.

Lemma passes_no_raise fuel : forall m n clk t xs c,
  no_raise FeatureReader multiprocessing map_func result_func ->
  forall e0, res (passes_ fuel m n clk t xs c) <> Raised e0.
Proof.
  passes_ind fuel IH; intros (Hr & Hm & Hf) e0; try done.
  - destruct (Hr (Py.slice_to xs batch_size)). congruence.
  - destruct (Hm rd). congruence.
  - specialize (Hf rs c). rewrite Hrf in Hf. done.
  - by apply IH.
Qed.

(** With a batch size of at least one, one more pass than the list has items
    is enough for the loop to end, whatever the collaborators do. *)
Lemma passes_terminates fuel : forall m n clk t xs c,
  (0 < batch_size)%Z -> length xs < fuel ->
  res (passes_ fuel m n clk t xs c) <> OutOfFuel.
Proof.
  passes_ind fuel IH; intros HB Hfuel; try done; [lia|].
  apply IH; [done|].
  assert (Hxs : xs <> []).
  { intros ->. by rewrite slice_from_nil in Hlen. }
  pose proof (slice_from_pos_shorter xs batch_size HB Hxs). lia.
Qed.

(** With a batch size of zero or less, the passes over a non-empty list go
    on for ever, unless a collaborator raises. *)
Lemma passes_diverges fuel : forall m n clk t xs c,
  (batch_size <= 0)%Z -> xs <> [] ->
  no_raise FeatureReader multiprocessing map_func result_func ->
  res (passes_ fuel m n clk t xs c) = OutOfFuel.
Proof.
  passes_ind fuel IH; intros HB Hxs (Hr & Hm & Hf); try done.
  - destruct (Hr (Py.slice_to xs batch_size)). congruence.
  - destruct (Hm rd). congruence.
  - specialize (Hf rs c). rewrite Hrf in Hf. done.
  - apply Nat.eqb_eq, nil_length_inv in Hlen. by apply slice_from_nonpos in Hlen.
  - apply IH; [done| |done]. by apply slice_from_nonpos.
Qed.

(** How the passes end and what they leave in the sink depend on the list
    and on the sink they start from, not on the clock nor on the counters. *)
Lemma passes_indep fuel : forall m n clk t xs c m' n' clk' t',
  res (passes_ fuel m n clk t xs c) = res (passes_ fuel m' n' clk' t' xs c)
  /\ sink (passes_ fuel m n clk t xs c) = sink (passes_ fuel m' n' clk' t' xs c).
Proof.
  passes_ind fuel IH; intros m' n' clk' t'; done.
Qed.

(** A trace that starts with the events of a whole pass. *)
Lemma in_turn_block (e1 e6 e7 : log_record) b b' rs c1 c2
    (tr : list (event Path R)) :
  in_turn tr ->
  in_turn (EvLog INFO e1 :: EvReader b :: EvMap b' :: EvReduce rs c1 c2
           :: EvLog INFO e6 :: EvLog DEBUG e7 :: tr).
Proof.
  intros Htr pre e post Hsplit.
  do 6 (destruct pre as [|? pre];
        [cbn in Hsplit; simplify_eq; cbn; done
        |cbn in Hsplit; injection Hsplit as <- Hsplit]).
  specialize (Htr pre e post Hsplit).
  destruct e; unfold readers, maps, reduces in *; cbn in *; try done; lia.
Qed.

(** A trace that is the beginning of a pass. *)
Lemma in_turn_short (tr : list (event Path R)) (e1 : log_record) b b' rs c1 c2 :
  tr = [EvLog INFO e1; EvReader b]
  \/ tr = [EvLog INFO e1; EvReader b; EvMap b']
  \/ tr = [EvLog INFO e1; EvReader b; EvMap b'; EvReduce rs c1 c2] ->
  in_turn tr.
Proof.
  intros Htr pre e post Hsplit.
  destruct Htr as [->|[->| ->]];
    do 5 (try (destruct pre as [|? pre];
               [cbn in Hsplit; simplify_eq; cbn; done
               |cbn in Hsplit; injection Hsplit as <- Hsplit]));
    by destruct pre.
Qed.

Lemma passes_in_turn fuel : forall m n clk t xs c,
  in_turn (evs (passes_ fuel m n clk t xs c)).
Proof.
  passes_ind fuel IH.
  - intros pre e post Hsplit. by destruct pre.
  - eapply (in_turn_short _ _ _ [] [] [] []); eauto.
  - eapply (in_turn_short _ _ _ _ [] [] []); eauto.
  - eapply in_turn_short; eauto.
  - apply in_turn_block. intros pre e post Hsplit. by destruct pre.
  - apply in_turn_block, IH.
Qed.

Lemma in_turn_cons (e0 : event Path R) tr :
  match e0 with EvReader _ | EvMap _ | EvReduce _ _ _ => False | _ => True end ->
  in_turn tr -> in_turn (e0 :: tr).
Proof.
  intros He0 Htr pre e post Hsplit.
  destruct pre as [|? pre]; cbn in Hsplit; injection Hsplit as <- Hsplit.
  - by destruct e0.
  - specialize (Htr pre e post Hsplit).
    destruct e, e0; unfold readers, maps, reduces in *; cbn in *; done.
Qed.

Lemma in_turn_snoc (e0 : event Path R) tr :
  match e0 with EvReader _ | EvMap _ | EvReduce _ _ _ => False | _ => True end ->
  in_turn tr -> in_turn (tr ++ [e0]).
Proof.
  intros He0 Htr pre e post Hsplit.
  destruct post as [|p post _] using rev_ind.
  - apply app_inj_tail in Hsplit as [-> ->]. by destruct e.
  - rewrite app_comm_cons, app_assoc in Hsplit.
    apply app_inj_tail in Hsplit as [Hs _]. exact (Htr _ _ _ Hs).
Qed.

(** When no collaborator raises and the batch size is positive, the passes
    return. *)
Lemma passes_done fuel m n clk t xs c :
  (0 < batch_size)%Z -> length xs < fuel ->
  no_raise FeatureReader multiprocessing map_func result_func ->
  res (passes_ fuel m n clk t xs c) = Done tt.
Proof.
  intros HB Hfuel Hnr.
  pose proof (passes_terminates fuel m n clk t xs c HB Hfuel) as Ht.
  pose proof (passes_no_raise fuel m n clk t xs c Hnr) as Hr.
  destruct (res _) as [[]|e|]; [done| |done]. by destruct (Hr e).
Qed.

(** With a positive batch size, a non-empty list and collaborators that do
    not raise, the batches are as many as the function announces. *)
Lemma passes_batch_count fuel : forall m n clk t xs c,
  (0 < batch_size)%Z -> xs <> [] ->
  no_raise FeatureReader multiprocessing map_func result_func ->
  length xs < fuel ->
  Z.of_nat (length (readers (evs (passes_ fuel m n clk t xs c))))
  = Py.ceil_div (Z.of_nat (length xs)) batch_size.
Proof.
  passes_ind fuel IH; intros HB Hxs (Hr & Hm & Hf) Hfuel; try lia.
  - destruct (Hr (Py.slice_to xs batch_size)). congruence.
  - destruct (Hm rd). congruence.
  - specialize (Hf rs c). rewrite Hrf in Hf. done.
  - apply Nat.eqb_eq in Hlen. rewrite length_slice_from in Hlen.
    rewrite slice_bound_nonneg in Hlen by lia.
    assert (0 < length xs) by (destruct xs; cbn; [done|lia]).
    symmetry. apply ceil_div_small. lia.
  - apply Nat.eqb_neq in Hlen.
    assert (Hrest : Py.slice_from xs batch_size <> []).
    { intros Hnil. by rewrite Hnil in Hlen. }
    pose proof (slice_from_pos_shorter xs batch_size HB Hxs) as Hshort.
    specialize (IH m (n + 1)%Z clk (S (S t)) (Py.slice_from xs batch_size) c'
                  HB Hrest (conj Hr (conj Hm Hf)) ltac:(lia)).
    assert (Heq : Z.of_nat (length (Py.slice_from xs batch_size))
                  = (Z.of_nat (length xs) - batch_size)%Z).
    { rewrite length_slice_from, slice_bound_nonneg in * by lia. lia. }
    unfold readers in IH. rewrite Nat2Z.inj_succ, IH, Heq.
    rewrite (ceil_div_step (Z.of_nat (length xs))) by done. lia.
Qed.

(** The map raises for the batch that follows the batches [good]. *)
Lemma passes_map_raises good : forall fuel m n clk t c rest c' rd e,
  (0 < batch_size)%Z ->
  Forall (fun g => length g = Z.to_nat batch_size) good ->
  rest <> [] ->
  completed FeatureReader multiprocessing map_func result_func good c = Some c' ->
  FeatureReader (Py.slice_to rest batch_size) = inr rd ->
  multiprocessing rd map_func = inl e ->
  length good < fuel ->
  res (passes_ fuel m n clk t (concat good ++ rest) c) = Raised (External e)
  /\ sink (passes_ fuel m n clk t (concat good ++ rest) c) = c'
  /\ readers (evs (passes_ fuel m n clk t (concat good ++ rest) c))
     = good ++ [Py.slice_to rest batch_size]
  /\ maps (evs (passes_ fuel m n clk t (concat good ++ rest) c))
     = good ++ [Py.slice_to rest batch_size]
  /\ length (reduces (evs (passes_ fuel m n clk t (concat good ++ rest) c)))
     = length good
  /\ last (evs (passes_ fuel m n clk t (concat good ++ rest) c))
     = Some (EvMap (Py.slice_to rest batch_size)).
Proof.
  induction good as [|g good IH];
    intros fuel m n clk t c rest c' rd e HB Hlen Hrest Hgood Hrd Hmap Hfuel;
    (destruct fuel as [|fuel]; [cbn in Hfuel; lia|]); cbn [passes concat].
  - cbn in Hgood. simplify_eq. cbn [app]. unfold pass.
    rewrite Hrd, Hmap. cbn. done.
  - apply Forall_cons in Hlen as [Hg Hlen].
    assert (Hto : Py.slice_to (g ++ concat good ++ rest) batch_size = g).
    { rewrite slice_to_nonneg by lia. by apply take_app_length'. }
    assert (Hfrom : Py.slice_from (g ++ concat good ++ rest) batch_size
                    = concat good ++ rest).
    { rewrite slice_from_nonneg by lia. by apply drop_app_length'. }
    rewrite <- !app_assoc. unfold pass. rewrite Hto, Hfrom.
    cbn [completed] in Hgood.
    destruct (FeatureReader g) as [|rd0]; [done|].
    destruct (multiprocessing rd0 map_func) as [|rs0]; [done|].
    destruct (result_func rs0 c) as [c1 [|]]; [done|]. cbn.
    assert ((length (concat good ++ rest) =? 0)%nat = false) as ->.
    { apply Nat.eqb_neq. rewrite length_app.
      destruct rest; [done|]. cbn. lia. }
    cbn in Hfuel.
    destruct (IH fuel m (n + 1)%Z clk (S (S t)) c1 rest c' rd e)
      as (H1 & H2 & H3 & H4 & H5 & H6); try done; try lia.
    unfold readers, maps, reduces in *. cbn.
    rewrite H1, H2, H3, H4, H5. repeat split.
    destruct (evs (passes_ fuel m (n + 1) clk (S (S t)) (concat good ++ rest) c1));
      [done|]. exact H6.
Qed.

(** Fuel only decides how long the loop is followed: passes that end, end
    in the same way with more fuel. *)
Lemma passes_unfold fuel m n clk t xs c :
  passes_ (S fuel) m n clk t xs c
  = let o := pass_ m n clk t xs c in
    match res o with
    | Done rest =>
        if (length rest =? 0)%nat
        then mkOutcome (Done tt) (evs o) (sink o) (tks o) (objs o)
        else
          let o' := passes_ fuel m (n + 1) clk (tks o) rest (sink o) in
          mkOutcome (res o') (evs o ++ evs o') (sink o') (tks o')
                    (objs o ++ objs o')
    | Raised e => mkOutcome (Raised e) (evs o) (sink o) (tks o) (objs o)
    | OutOfFuel => mkOutcome OutOfFuel (evs o) (sink o) (tks o) (objs o)
    end.
Proof. reflexivity. Qed.

Lemma passes_S fuel : forall m n clk t xs c,
  res (passes_ fuel m n clk t xs c) <> OutOfFuel ->
  passes_ (S fuel) m n clk t xs c = passes_ fuel m n clk t xs c.
Proof.
  induction fuel as [|fuel IH]; intros m n clk t xs c Hend; [done|].
  rewrite (passes_unfold (S fuel)). rewrite (passes_unfold fuel) in Hend |- *.
  cbv zeta in *.
  destruct (res (pass_ m n clk t xs c)) as [rest|e|]; [|done|done].
  destruct (length rest =? 0)%nat; [done|].
  cbn [res] in Hend. by rewrite IH.
Qed.

Lemma passes_more_fuel k fuel m n clk t xs c :
  res (passes_ fuel m n clk t xs c) <> OutOfFuel ->
  passes_ (k + fuel) m n clk t xs c = passes_ fuel m n clk t xs c.
Proof.
  intros Hend. induction k as [|k IH]; [done|].
  cbn [Nat.add]. rewrite passes_S; [done|]. by rewrite IH.
Qed.

(** ** The whole run, on values *)

Lemma overflows_0 : Py.overflows 0 = false.
Proof. reflexivity. Qed.

Lemma overflows_false (b : Z) :
  Py.overflows b = false <-> (- Py.float_limit < b < Py.float_limit)%Z.
Proof. unfold Py.overflows. rewrite Z.leb_gt. lia. Qed.

Lemma run_overflow fuel clk t xs :
  Py.overflows batch_size = true ->
  run_ fuel clk t xs
  = mkOutcome (Raised OverflowError) [EvOpen outpath] [] t [].
Proof. intros HB. unfold run. by rewrite HB. Qed.

Lemma run_zero fuel clk t xs :
  batch_size = 0%Z ->
  run_ fuel clk t xs
  = mkOutcome (Raised ZeroDivisionError) [EvOpen outpath] [] t [].
Proof. intros ->. unfold run. by rewrite overflows_0. Qed.

(** A run stops before the loop, or the batch size is one the division
    takes. *)
Lemma run_cases fuel clk t xs :
  (exists e, run_ fuel clk t xs = mkOutcome (Raised e) [EvOpen outpath] [] t []
             /\ ((e = ZeroDivisionError /\ batch_size = 0%Z)
                 \/ (e = OverflowError /\ Py.overflows batch_size = true)))
  \/ (batch_size <> 0%Z /\ Py.overflows batch_size = false).
Proof.
  destruct (Py.overflows batch_size) eqn:Hov.
  { left. eexists. split; [by apply run_overflow|by right]. }
  destruct (decide (batch_size = 0%Z)) as [HB|HB].
  { left. eexists. split; [by apply run_zero|by left]. }
  by right.
Qed.

Lemma run_nonzero fuel clk t xs :
  batch_size <> 0%Z ->
  Py.overflows batch_size = false ->
  let p := passes_ fuel (Py.ceil_div (Z.of_nat (length xs)) batch_size) 0 clk t xs [] in
  run_ fuel clk t xs
  = mkOutcome (res p)
      (EvOpen outpath :: EvLog INFO ScriptStarted :: evs p
         ++ epilogue (Path:=Path) (R:=R) outpath (res p))
      (sink p) (tks p) (objs p).
Proof.
  intros HB Hov p. unfold run. apply Z.eqb_neq in HB. by rewrite Hov, HB.
Qed.

(** The batch events of a run are those of its passes. *)
Lemma epilogue_batches (r : result E unit) (tr : list (event Path R)) :
  readers (EvLog INFO ScriptStarted :: tr ++ epilogue outpath r) = readers tr
  /\ maps (EvLog INFO ScriptStarted :: tr ++ epilogue outpath r) = maps tr
  /\ reduces (EvLog INFO ScriptStarted :: tr ++ epilogue outpath r) = reduces tr
  /\ opens (EvLog INFO ScriptStarted :: tr ++ epilogue outpath r) = opens tr.
Proof.
  unfold readers, maps, reduces, opens. cbn. rewrite !omap_app.
  destruct r; cbn; by rewrite !app_nil_r.
Qed.

Lemma run_in_turn fuel clk t xs : in_turn (evs (run_ fuel clk t xs)).
Proof.
  destruct (run_cases fuel clk t xs) as [(e0 & -> & _)|[HB Hov]].
  - intros pre e post Hsplit.
    destruct pre as [|? pre]; cbn in Hsplit; simplify_eq; [done|by destruct pre].
  - rewrite run_nonzero by done. cbn [evs].
    do 2 (apply in_turn_cons; [done|]).
    destruct (res _); cbn [epilogue]; rewrite ?app_nil_r; try apply passes_in_turn.
    change [EvLog INFO ScriptDone; EvClose outpath]
      with ([EvLog INFO ScriptDone] ++ [EvClose outpath] : list (event Path R)).
    rewrite app_assoc.
    do 2 (apply in_turn_snoc; [done|]). apply passes_in_turn.
Qed.

(** A run that ends, ends in the same way and leaves the same world with
    more fuel. *)
Theorem generic_processor_more_fuel k fuel l (w : W) xs :
  heap w !! l = Some xs ->
  (generic_processor_ l fuel w).1 <> OutOfFuel ->
  generic_processor_ l (k + fuel) w = generic_processor_ l fuel w.
Proof.
  intros Hl. rewrite !(generic_processor_eq _ l w xs Hl). cbn [fst].
  destruct (Py.overflows batch_size) eqn:Hov.
  { by rewrite !run_overflow. }
  destruct (decide (batch_size = 0%Z)) as [HB|HB].
  { by rewrite !run_zero. }
  rewrite !run_nonzero by done. cbn [res]. intros Hend.
  by rewrite passes_more_fuel.
Qed.

(** ** The claims *)

(** C8.  The list the caller passes is not mutated: the run only makes new
    list objects (the slices), so every list object of the world before the
    call, the caller's list among them, is the same object with the same
    content after the call, however the run ends. *)
Theorem paths_not_mutated l (w : W) xs fuel :
  heap w !! l = Some xs ->
  heap (generic_processor FeatureReader multiprocessing st_size map_func
          result_func outpath batch_size l fuel w).2 !! l = Some xs
  /\ forall l' ys, heap w !! l' = Some ys ->
       heap (generic_processor FeatureReader multiprocessing st_size map_func
               result_func outpath batch_size l fuel w).2 !! l' = Some ys.
Proof.
  intros Hl. rewrite (generic_processor_eq fuel l w xs Hl).
  cbn. split; [|intros l' ys Hl']; by apply lookup_app_l_Some.
Qed.

(** C4.  The sink is opened once, first of all, hence before any batch; its
    content is what the calls of [result_func] make of it, starting from the
    empty file, one call for each batch that was mapped; and when the run
    returns the sink is closed once, last of all, after a reduction has been
    made for every batch. *)
Theorem sink_discipline l (w : W) xs fuel :
  heap w !! l = Some xs ->
  exists tr c,
    trace (generic_processor_ l fuel w).2 = trace w ++ EvOpen outpath :: tr
    /\ opens tr = []
    /\ fs (generic_processor_ l fuel w).2 !! outpath = Some c
    /\ written_by result_func [] (reduces tr) c
    /\ length (reduces tr) <= length (maps tr) <= length (readers tr)
    /\ ((generic_processor_ l fuel w).1 = Done tt ->
        exists mid, tr = mid ++ [EvClose outpath] /\ closes mid = []
                    /\ length (reduces tr) = length (readers tr))
    /\ ((generic_processor_ l fuel w).1 <> Done tt -> closes tr = []).
Proof.
  intros Hl. rewrite (generic_processor_eq fuel l w xs Hl).
  cbn [fst snd after trace fs]. rewrite lookup_insert_eq.
  destruct (run_cases fuel (clock w) (ticks w) xs) as [(e0 & -> & He0)|[HB Hov]].
  { cbn. exists [], []. repeat split; done || lia. }
  rewrite run_nonzero by done. cbn [res evs sink].
  set (p := passes_ fuel _ 0%Z (clock w) (ticks w) xs []).
  destruct (passes_opens_closes fuel (Py.ceil_div (Z.of_nat (length xs)) batch_size)
              0%Z (clock w) (ticks w) xs []) as (Hop & Hcl).
  destruct (passes_counts fuel (Py.ceil_div (Z.of_nat (length xs)) batch_size)
              0%Z (clock w) (ticks w) xs []) as (H1 & H2 & H3 & H4).
  pose proof (passes_written_by fuel (Py.ceil_div (Z.of_nat (length xs)) batch_size)
                0%Z (clock w) (ticks w) xs []) as Hw.
  fold p in Hop, Hcl, H1, H2, H3, H4, Hw.
  destruct (epilogue_batches (res p) (evs p)) as (Hrd & Hmp & Hred & Hopn).
  eexists _, _. split; [reflexivity|].
  rewrite Hrd, Hmp, Hred, Hopn.
  split; [done|]. split; [done|]. split; [done|]. split; [lia|]. split.
  - intros Hd. rewrite Hd.
    exists (EvLog INFO ScriptStarted :: evs p ++ [EvLog INFO ScriptDone]).
    split; [cbn; by rewrite <- app_assoc|].
    split; [unfold closes in *; cbn; by rewrite omap_app, Hcl|].
    by apply H4.
  - intros Hnd. unfold closes in *. cbn. rewrite omap_app, Hcl.
    destruct (res p) as [[]|?|]; done.
Qed.

(** C5.  Batches are processed one at a time.  In the trace of any run, when
    the map of a batch is dispatched, every batch dispatched before it has
    been reduced: as many reductions have returned as maps were dispatched
    earlier.  The reader of a batch is built only when all earlier batches
    are reduced, and a reduction follows the map of its own batch.  The sink
    a reduction finds is the sink the previous reduction left. *)
Theorem batches_one_at_a_time l (w : W) xs fuel :
  heap w !! l = Some xs ->
  exists tr c,
    trace (generic_processor_ l fuel w).2 = trace w ++ tr
    /\ in_turn tr
    /\ (forall pre b post, tr = pre ++ EvMap b :: post ->
          length (reduces pre) = length (maps pre))
    /\ fs (generic_processor_ l fuel w).2 !! outpath = Some c
    /\ written_by result_func [] (reduces tr) c.
Proof.
  intros Hl. rewrite (generic_processor_eq fuel l w xs Hl).
  cbn [fst snd after trace fs]. rewrite lookup_insert_eq.
  pose proof (run_in_turn fuel (clock w) (ticks w) xs) as Hturn.
  eexists _, _. split; [reflexivity|]. split; [done|]. split.
  { intros pre b post Hsplit. by destruct (Hturn pre _ post Hsplit) as [_ ->]. }
  split; [done|].
  destruct (run_cases fuel (clock w) (ticks w) xs) as [(e0 & -> & He0)|[HB Hov]].
  { done. }
  rewrite run_nonzero by done. cbn [evs sink].
  change (reduces (EvOpen outpath :: ?q)) with (reduces q).
  destruct (epilogue_batches (res (passes_ fuel
              (Py.ceil_div (Z.of_nat (length xs)) batch_size) 0%Z
              (clock w) (ticks w) xs []))
              (evs (passes_ fuel
              (Py.ceil_div (Z.of_nat (length xs)) batch_size) 0%Z
              (clock w) (ticks w) xs []))) as (_ & _ & -> & _).
  apply passes_written_by.
Qed.


(** C9, as the code has it.  A batch size of zero does not make the run loop:
    the total of batches is computed first, and the division raises
    [ZeroDivisionError] once the sink is opened and before the loop is
    entered; in the same way it raises [OverflowError] for a batch size that
    no float holds.  The loop by itself would not end with a batch size of
    zero and a non-empty list: every pass takes an empty batch and leaves
    the list as it is.  The run does not end with a negative batch size
    that a float holds and a non-empty list, as long as no collaborator
    raises.  With a batch size of at least one the run ends, whatever the
    collaborators do. *)
Theorem termination_by_batch_size l (w : W) xs :
  heap w !! l = Some xs ->
  (batch_size = 0%Z ->
     forall fuel,
       (generic_processor_ l fuel w).1 = Raised ZeroDivisionError
       /\ trace (generic_processor_ l fuel w).2 = trace w ++ [EvOpen outpath])
  /\ (batch_size = 0%Z -> xs <> [] ->
      no_raise FeatureReader multiprocessing map_func result_func ->
      Py.slice_to xs batch_size = [] /\ Py.slice_from xs batch_size = xs
      /\ forall m n c, fs w !! outpath = Some c ->
           loops_forever (fun fuel => while_true_ fuel outpath m n l) w)
  /\ ((batch_size < 0)%Z -> Py.overflows batch_size = false -> xs <> [] ->
      no_raise FeatureReader multiprocessing map_func result_func ->
      loops_forever (generic_processor_ l) w)
  /\ ((0 < batch_size)%Z ->
      (forall fuel, length xs < fuel ->
         (generic_processor_ l fuel w).1 <> OutOfFuel)
      /\ terminates (generic_processor_ l) w)
  /\ (Py.overflows batch_size = true ->
      forall fuel,
        (generic_processor_ l fuel w).1 = Raised OverflowError
        /\ trace (generic_processor_ l fuel w).2 = trace w ++ [EvOpen outpath]).
Proof.
  intros Hl.
  assert (Hends : (0 < batch_size)%Z -> forall fuel, length xs < fuel ->
            (generic_processor_ l fuel w).1 <> OutOfFuel).
  { intros HB fuel Hfuel.
    rewrite (generic_processor_eq fuel l w xs Hl). cbn [fst].
    destruct (run_cases fuel (clock w) (ticks w) xs)
      as [(e0 & -> & _)|[_ Hov]]; [done|].
    rewrite run_nonzero by (done || lia). cbn [res].
    by apply passes_terminates. }
  split; [|split; [|split; [|split]]].
  - intros HB fuel. rewrite (generic_processor_eq fuel l w xs Hl).
    cbn. by rewrite run_zero.
  - intros HB Hxs Hnr. rewrite HB at 1 2. split; [apply slice_to_0|].
    split; [apply slice_from_0|].
    intros m n c Hc fuel.
    rewrite (while_true_eq fuel m n l w xs c Hl Hc). cbn.
    apply passes_diverges; [lia|done|done].
  - intros HB Hov Hxs Hnr fuel.
    rewrite (generic_processor_eq fuel l w xs Hl).
    cbn. rewrite run_nonzero by (done || lia). cbn.
    apply passes_diverges; [lia|done|done].
  - intros HB. split; [by apply Hends|].
    exists (S (length xs)). apply Hends; [done|lia].
  - intros Hov fuel. rewrite (generic_processor_eq fuel l w xs Hl).
    cbn. by rewrite run_overflow.
Qed.

(** C10.  With an empty list the run does not fail fast.  It opens and
    truncates the output file, makes one pass with the empty batch (the
    reader is built over no identifier, the parallel map is called, and
    [result_func] is called once, with the empty collection of results),
    closes the sink and returns; the file is at [outpath].  This is so for
    every batch size but zero that a float holds, when the collaborators
    take an empty batch. *)
Theorem empty_list_single_pass l (w : W) fuel rd c :
  heap w !! l = Some [] ->
  batch_size <> 0%Z ->
  Py.overflows batch_size = false ->
  FeatureReader [] = inr rd ->
  multiprocessing rd map_func = inr [] ->
  result_func [] [] = (c, None) ->
  (generic_processor_ l (S fuel) w).1 = Done tt
  /\ trace (generic_processor_ l (S fuel) w).2
     = trace w ++
       [EvOpen outpath; EvLog INFO ScriptStarted;
        EvLog INFO (StartingBatch 1 0); EvReader []; EvMap []; EvReduce [] [] c;
        EvLog INFO (BatchFinished 0 (clock w (S (ticks w))) (clock w (ticks w)));
        EvLog DEBUG (OutputFilesize (st_size c));
        EvLog INFO ScriptDone; EvClose outpath]
  /\ fs (generic_processor_ l (S fuel) w).2 !! outpath = Some c.
Proof.
  intros Hl HB Hov Hrd Hmap Hred.
  rewrite (generic_processor_eq (S fuel) l w [] Hl).
  cbn [fst snd after trace fs]. rewrite lookup_insert_eq.
  rewrite run_nonzero by done. cbn [length Z.of_nat passes].
  rewrite ceil_div_0. unfold pass.
  rewrite slice_to_nil, slice_from_nil, Hrd, Hmap, Hred. cbn. done.
Qed.

(** C1, at the empty list.  With a positive batch size that a float holds,
    the total the function computes and announces is
    [ceil(0/batch_size) = 0], and yet one batch, the empty one, is handed to
    the reader: the run announces "Starting batch 1/0". *)
Theorem empty_list_batch_count l (w : W) fuel :
  heap w !! l = Some [] ->
  (0 < batch_size)%Z ->
  Py.overflows batch_size = false ->
  exists tr,
    trace (generic_processor_ l (S fuel) w).2 = trace w ++ tr
    /\ readers tr = [[]]
    /\ announced tr = [(1%Z, 0%Z)]
    /\ Py.ceil_div (Z.of_nat (length (@nil Path))) batch_size = 0%Z
    /\ Z.of_nat (length (readers tr))
       <> Py.ceil_div (Z.of_nat (length (@nil Path))) batch_size.
Proof.
  intros Hl HB Hov.
  rewrite (generic_processor_eq (S fuel) l w [] Hl).
  cbn [fst snd after trace]. rewrite run_nonzero by (done || lia).
  cbn [length Z.of_nat passes evs]. rewrite ceil_div_0.
  eexists. split; [reflexivity|].
  unfold pass. rewrite slice_to_nil, slice_from_nil.
  destruct (FeatureReader []) as [e|rd]; [done|].
  destruct (multiprocessing rd map_func) as [e|rs]; [done|].
  by destruct (result_func rs []) as [c' [e|]].
Qed.

(** X1.  The count of batches, away from the empty list.  With a positive
    batch size that a float holds and collaborators that do not raise, a non-empty list of [L] items is
    processed in [ceil(L/batch_size)] batches whose lengths add up to [L];
    every batch has [batch_size] items but the last, which has [batch_size]
    items when [batch_size] divides [L] and [L mod batch_size] otherwise. *)
Theorem nonempty_list_batch_count l (w : W) xs fuel :
  heap w !! l = Some xs ->
  xs <> [] ->
  (0 < batch_size)%Z ->
  Py.overflows batch_size = false ->
  no_raise FeatureReader multiprocessing map_func result_func ->
  length xs < fuel ->
  exists tr,
    trace (generic_processor_ l fuel w).2 = trace w ++ tr
    /\ (generic_processor_ l fuel w).1 = Done tt
    /\ Z.of_nat (length (readers tr))
       = Py.ceil_div (Z.of_nat (length xs)) batch_size
    /\ sum_list (length <$> readers tr) = length xs
    /\ forall k bk, readers tr !! k = Some bk ->
         Z.of_nat (length bk)
         = if decide (S k = length (readers tr))
           then if (Z.of_nat (length xs) mod batch_size =? 0)%Z
                then batch_size
                else (Z.of_nat (length xs) mod batch_size)%Z
           else batch_size.
Proof.
  intros Hl Hxs HB Hov Hnr Hfuel.
  rewrite (generic_processor_eq fuel l w xs Hl).
  cbn [fst snd after trace]. rewrite run_nonzero by (done || lia). cbn [res evs].
  set (m := Py.ceil_div (Z.of_nat (length xs)) batch_size).
  set (p := passes_ fuel m 0%Z (clock w) (ticks w) xs []).
  eexists. split; [reflexivity|].
  change (readers (EvOpen outpath :: ?q)) with (readers q).
  destruct (epilogue_batches (res p) (evs p)) as (-> & _).
  assert (Hdone : res p = Done tt) by by apply passes_done.
  destruct (passes_concat fuel m 0%Z (clock w) (ticks w) xs []) as (rest & Hc & Hd).
  fold p in Hc, Hd. rewrite (Hd Hdone), app_nil_r in Hc.
  pose proof (passes_batch_count fuel m 0%Z (clock w) (ticks w) xs []
                HB Hxs Hnr Hfuel) as Hcount.
  fold p in Hcount.
  split; [done|]. split; [done|]. split.
  { transitivity (length (concat (readers (evs p)))); [|by rewrite Hc].
    clear. induction (readers (evs p)) as [|b bs IH]; [done|].
    cbn. rewrite length_app. by rewrite IH. }
  intros k bk Hk.
  pose proof (lookup_lt_Some _ _ _ Hk) as Hklt.
  apply passes_readers_lookup in Hk; [|done]. subst bk.
  rewrite length_take, length_drop.
  pose proof (ceil_div_spec (Z.of_nat (length xs)) batch_size HB) as Hceil.
  fold m in Hceil, Hcount.
  pose proof (Z.div_mod (Z.of_nat (length xs)) batch_size ltac:(lia)) as Hdm.
  pose proof (Z.mod_pos_bound (Z.of_nat (length xs)) batch_size HB) as Hmod.
  assert (Hb : Z.of_nat (Z.to_nat batch_size) = batch_size) by lia.
  set (q := (Z.of_nat (length xs) / batch_size)%Z) in *.
  set (r := (Z.of_nat (length xs) mod batch_size)%Z) in *.
  assert (Hoff : Z.of_nat (k * Z.to_nat batch_size) = (Z.of_nat k * batch_size)%Z)
    by (rewrite Nat2Z.inj_mul; lia).
  assert (Hbelow : (Z.of_nat k * batch_size < Z.of_nat (length xs))%Z) by nia.
  destruct (decide (S k = length (readers (evs p)))) as [Hlast|Hnot].
  - assert (Hm : m = (Z.of_nat k + 1)%Z) by lia.
    assert (Hrest : (Z.of_nat (length xs) - Z.of_nat k * batch_size
                     <= batch_size)%Z) by nia.
    destruct (Z.eqb_spec r 0) as [Hr0|Hr0].
    + assert (q = (Z.of_nat k + 1)%Z) by nia. nia.
    + assert (q = Z.of_nat k) by nia. nia.
  - assert (Hm : (Z.of_nat k + 1 <= m - 1)%Z) by lia.
    assert (Hrest : (batch_size
                     <= Z.of_nat (length xs) - Z.of_nat k * batch_size)%Z) by nia.
    lia.
Qed.

(** C2.  With a positive batch size that a float holds, the batches are the
    pieces of the list, taken in its order: in any run the k-th batch handed to the reader is
    the [batch_size] items that follow the first [k * batch_size], the maps
    are dispatched over these batches in the same order, and the batches
    put end to end are the beginning of the list.  When no collaborator
    raises, the run returns, given one unit of fuel more than the list has
    items, and then the batches put end to end are the whole list: every
    identifier is in one batch, at its place. *)
Theorem batches_partition l (w : W) xs fuel :
  heap w !! l = Some xs ->
  (0 < batch_size)%Z ->
  Py.overflows batch_size = false ->
  exists tr,
    trace (generic_processor_ l fuel w).2 = trace w ++ tr
    /\ (forall k bk, readers tr !! k = Some bk ->
          bk = take (Z.to_nat batch_size) (drop (k * Z.to_nat batch_size) xs))
    /\ maps tr `prefix_of` readers tr
    /\ (exists rest, concat (readers tr) ++ rest = xs
          /\ ((generic_processor_ l fuel w).1 = Done tt -> rest = []))
    /\ (no_raise FeatureReader multiprocessing map_func result_func ->
        length xs < fuel ->
        (generic_processor_ l fuel w).1 = Done tt
        /\ concat (readers tr) = xs
        /\ maps tr = readers tr
        /\ sum_list (length <$> readers tr) = length xs).
Proof.
  intros Hl HB Hov.
  rewrite (generic_processor_eq fuel l w xs Hl).
  cbn [fst snd after trace]. rewrite run_nonzero by (done || lia). cbn [res evs].
  set (m := Py.ceil_div (Z.of_nat (length xs)) batch_size).
  set (p := passes_ fuel m 0%Z (clock w) (ticks w) xs []).
  eexists. split; [reflexivity|].
  change (readers (EvOpen outpath :: ?q)) with (readers q).
  change (maps (EvOpen outpath :: ?q)) with (maps q).
  destruct (epilogue_batches (res p) (evs p)) as (-> & -> & _).
  destruct (passes_concat fuel m 0%Z (clock w) (ticks w) xs []) as (rest & Hc & Hd).
  fold p in Hc, Hd.
  split; [intros k bk; by apply passes_readers_lookup|].
  split; [apply passes_maps_prefix|].
  split; [by exists rest|].
  intros Hnr Hfuel.
  assert (Hdone : res p = Done tt) by by apply passes_done.
  rewrite (Hd Hdone), app_nil_r in Hc.
  split; [done|]. split; [done|]. split.
  - by apply passes_counts.
  - transitivity (length (concat (readers (evs p)))); [|by rewrite Hc].
    clear. induction (readers (evs p)) as [|b bs IH]; [done|].
    cbn. rewrite length_app. by rewrite IH.
Qed.

(** C3.  The parallel map raises for the batch that follows the batches
    [good], which were read, mapped and reduced without an exception.  The
    run ends with this same exception; the batch is not dispatched again and
    nothing is called after its map, the closing of the sink included; and
    the sink holds what the reductions of the batches [good] wrote, one
    reduction for each.  The batch size is positive and one that a float
    holds, so that the loop is entered. *)
Theorem map_error_propagates l (w : W) good rest rd e c fuel :
  heap w !! l = Some (concat good ++ rest) ->
  (0 < batch_size)%Z ->
  Py.overflows batch_size = false ->
  Forall (fun g => length g = Z.to_nat batch_size) good ->
  rest <> [] ->
  completed FeatureReader multiprocessing map_func result_func good [] = Some c ->
  FeatureReader (Py.slice_to rest batch_size) = inr rd ->
  multiprocessing rd map_func = inl e ->
  length good < fuel ->
  (generic_processor_ l fuel w).1 = Raised (External e)
  /\ fs (generic_processor_ l fuel w).2 !! outpath = Some c
  /\ exists tr,
      trace (generic_processor_ l fuel w).2 = trace w ++ tr
      /\ maps tr = good ++ [Py.slice_to rest batch_size]
      /\ length (reduces tr) = length good
      /\ last tr = Some (EvMap (Py.slice_to rest batch_size))
      /\ closes tr = [].
Proof.
  intros Hl HB Hov Hlen Hrest Hgood Hrd Hmap Hfuel.
  rewrite (generic_processor_eq fuel l w _ Hl).
  cbn [fst snd after trace fs]. rewrite lookup_insert_eq.
  rewrite run_nonzero by (done || lia). cbn [res evs sink].
  set (m := Py.ceil_div _ batch_size).
  destruct (passes_map_raises good fuel m 0%Z (clock w) (ticks w) [] rest c rd e)
    as (H1 & H2 & H3 & H4 & H5 & H6); try done.
  destruct (passes_opens_closes fuel m 0%Z (clock w) (ticks w)
              (concat good ++ rest) []) as (_ & Hcl).
  rewrite H1, H2. split; [done|]. split; [done|].
  eexists. split; [reflexivity|]. cbn [epilogue]. rewrite app_nil_r.
  split; [exact H4|]. split; [exact H5|]. split; [|exact Hcl].
  destruct (evs (passes_ fuel m 0%Z (clock w) (ticks w) (concat good ++ rest) []));
    [done|exact H6].
Qed.

(** ** More about the passes *)

(** The log records of a run are those of its passes. *)
Lemma epilogue_logs (r : result E unit) (tr : list (event Path R)) :
  announced (EvOpen outpath :: EvLog INFO ScriptStarted :: tr ++ epilogue outpath r)
  = announced tr
  /\ finished (EvOpen outpath :: EvLog INFO ScriptStarted :: tr ++ epilogue outpath r)
     = finished tr
  /\ reduced (EvOpen outpath :: EvLog INFO ScriptStarted :: tr ++ epilogue outpath r)
     = reduced tr.
Proof.
  unfold announced, finished, reduced, reduces. cbn. rewrite !omap_app.
  destruct r; cbn; by rewrite !app_nil_r.
Qed.

(** The counter of the "Starting batch" records goes up by one with every
    batch, and the total they show is the one computed before the loop. *)
Lemma passes_announced fuel : forall m n clk t xs c,
  announced (evs (passes_ fuel m n clk t xs c))
  = (fun k => ((n + 1 + Z.of_nat k)%Z, m))
      <$> seq 0 (length (readers (evs (passes_ fuel m n clk t xs c)))).
Proof.
  passes_ind fuel IH; try done;
    try (change (Z.of_nat 0) with 0%Z; by rewrite Z.add_0_r).
  f_equal; [f_equal; lia|].
  unfold announced, readers in IH. rewrite IH.
  rewrite <- fmap_S_seq, <- list_fmap_compose.
  apply list_fmap_ext. intros _ k _. cbn. f_equal. lia.
Qed.

(** A "finished" record is written for every batch that was reduced, with
    the size of that batch. *)
Lemma passes_finished fuel : forall m n clk t xs c,
  finished (evs (passes_ fuel m n clk t xs c))
    `prefix_of` (length <$> readers (evs (passes_ fuel m n clk t xs c)))
  /\ (res (passes_ fuel m n clk t xs c) = Done tt ->
      finished (evs (passes_ fuel m n clk t xs c))
      = length <$> readers (evs (passes_ fuel m n clk t xs c))).
Proof.
  passes_ind fuel IH; try (split; [apply prefix_nil|done]); try done.
  destruct (IH m (n + 1)%Z clk (S (S t)) (Py.slice_from xs batch_size) c')
    as [Hp Hd].
  unfold finished, readers in *. split.
  - by apply prefix_cons.
  - intros Hdone. by rewrite Hd.
Qed.

(** What [result_func] is given for a batch is what the parallel map
    returned for the reader over that very batch. *)
Lemma passes_results fuel : forall m n clk t xs c,
  forall k rs before after,
    reduces (evs (passes_ fuel m n clk t xs c)) !! k = Some (rs, before, after) ->
    exists b rd,
      readers (evs (passes_ fuel m n clk t xs c)) !! k = Some b
      /\ maps (evs (passes_ fuel m n clk t xs c)) !! k = Some b
      /\ FeatureReader b = inr rd
      /\ multiprocessing rd map_func = inr rs.
Proof.
  passes_ind fuel IH; intros k rs0 before after Hk; try done;
    try (destruct k as [|k]; [|done]; cbn in Hk; simplify_eq;
         by exists (Py.slice_to xs batch_size), rd).
  destruct k as [|k]; cbn in Hk.
  - simplify_eq. by exists (Py.slice_to xs batch_size), rd.
  - apply IH in Hk. exact Hk.
Qed.

(** With a reducer that appends, the sink is what it held followed by what
    the calls appended, in the order of the calls. *)
Lemma passes_appends (enc : list R -> list Byte.byte) fuel :
  forall m n clk t xs c,
  (forall rs c0, (result_func rs c0).1 = c0 ++ enc rs) ->
  sink (passes_ fuel m n clk t xs c)
  = c ++ concat (enc <$> reduced (evs (passes_ fuel m n clk t xs c))).
Proof.
  passes_ind fuel IH; intros Happ; try (by rewrite app_nil_r);
    pose proof (Happ rs c) as Hc; rewrite Hrf in Hc; cbn in Hc; subst c'.
  - by rewrite app_nil_r.
  - by rewrite app_nil_r.
  - rewrite IH by done. unfold reduced, reduces. by rewrite <- app_assoc.
Qed.

(** After the batches [good], which are read, mapped and reduced without an
    exception, the passes go on over the rest of the list as if they
    started there, with the sink the batches left. *)
Lemma passes_after_good good : forall fuel m n clk t c rest c' n' t',
  (0 < batch_size)%Z ->
  Forall (fun g => length g = Z.to_nat batch_size) good ->
  rest <> [] ->
  completed FeatureReader multiprocessing map_func result_func good c = Some c' ->
  n' = (n + Z.of_nat (length good))%Z ->
  t' = t + 2 * length good ->
  exists pre,
    evs (passes_ (length good + fuel) m n clk t (concat good ++ rest) c)
    = pre ++ evs (passes_ fuel m n' clk t' rest c')
    /\ res (passes_ (length good + fuel) m n clk t (concat good ++ rest) c)
       = res (passes_ fuel m n' clk t' rest c')
    /\ sink (passes_ (length good + fuel) m n clk t (concat good ++ rest) c)
       = sink (passes_ fuel m n' clk t' rest c')
    /\ readers pre = good /\ maps pre = good
    /\ length (reduces pre) = length good
    /\ finished pre = length <$> good.
Proof.
  induction good as [|g good IH];
    intros fuel m n clk t c rest c' n' t' HB Hlen Hrest Hgood -> ->.
  - cbn in Hgood. simplify_eq. exists []. cbn.
    by rewrite Z.add_0_r, Nat.add_0_r.
  - apply Forall_cons in Hlen as [Hg Hlen].
    assert (Hto : Py.slice_to (g ++ concat good ++ rest) batch_size = g).
    { rewrite slice_to_nonneg by lia. by apply take_app_length'. }
    assert (Hfrom : Py.slice_from (g ++ concat good ++ rest) batch_size
                    = concat good ++ rest).
    { rewrite slice_from_nonneg by lia. by apply drop_app_length'. }
    cbn [completed] in Hgood.
    destruct (FeatureReader g) as [|rd0] eqn:Hfr; [done|].
    destruct (multiprocessing rd0 map_func) as [|rs0] eqn:Hmp; [done|].
    destruct (result_func rs0 c) as [c1 [|]] eqn:Hrf; [done|].
    assert (Hpass : pass_ m n clk t (g ++ concat good ++ rest) c
              = mkOutcome (Done (concat good ++ rest))
                  [EvLog INFO (StartingBatch (n + 1) m); EvReader g; EvMap g;
                   EvReduce rs0 c c1;
                   EvLog INFO (BatchFinished (length g) (clk (S t)) (clk t));
                   EvLog DEBUG (OutputFilesize (st_size c1))]
                  c1 (S (S t)) [g; concat good ++ rest]).
    { unfold pass. by rewrite Hto, Hfrom, Hfr, Hmp, Hrf. }
    cbn [length Nat.add concat]. rewrite passes_unfold. cbv zeta.
    rewrite <- !app_assoc, Hpass. cbn [res evs sink tks].
    assert ((length (concat good ++ rest) =? 0)%nat = false) as ->.
    { apply Nat.eqb_neq. rewrite length_app.
      destruct rest; [done|]. cbn. lia. }
    cbn [res evs sink].
    destruct (IH fuel m (n + 1)%Z clk (S (S t)) c1 rest c'
                 (n + Z.of_nat (S (length good)))%Z (t + 2 * S (length good)))
      as (pre & Hevs & Hres & Hsink & Hrds & Hmps & Hreds & Hfin);
      try done; try lia.
    eexists (_ ++ pre). rewrite Hevs, Hres, Hsink, <- app_assoc.
    split; [reflexivity|]. split; [done|]. split; [done|].
    unfold readers, maps, reduces, finished in *. rewrite !omap_app.
    cbn. rewrite Hrds, Hmps, Hreds, Hfin. done.
Qed.

(** *** Negative batch sizes *)

Lemma slice_to_negative (xs : list Path) i :
  (i < 0)%Z -> Py.slice_to xs i = take (length xs - Z.to_nat (- i)) xs.
Proof.
  intros Hi. unfold Py.slice_to, Py.slice_bound.
  destruct (Z.ltb_spec i 0); [|lia]. f_equal. lia.
Qed.

Lemma slice_negative_short (xs : list Path) i :
  (i < 0)%Z -> (Z.of_nat (length xs) <= - i)%Z ->
  Py.slice_to xs i = [] /\ Py.slice_from xs i = xs.
Proof.
  intros Hi Hlen. unfold Py.slice_to, Py.slice_from, Py.slice_bound.
  destruct (Z.ltb_spec i 0); [|lia].
  by replace (Z.to_nat (Z.max 0 (Z.of_nat (length xs) + i))) with 0 by lia.
Qed.

Lemma length_slice_from_negative (xs : list Path) i :
  (i < 0)%Z -> (Z.of_nat (length (Py.slice_from xs i)) <= - i)%Z.
Proof.
  intros Hi. rewrite length_slice_from. unfold Py.slice_bound.
  destruct (Z.ltb_spec i 0); lia.
Qed.

(** Once the list is no longer than the batch size is negative, every batch
    is empty. *)
Lemma passes_stuck fuel : forall m n clk t xs c,
  (batch_size < 0)%Z -> (Z.of_nat (length xs) <= - batch_size)%Z ->
  Forall (fun b => b = []) (readers (evs (passes_ fuel m n clk t xs c))).
Proof.
  passes_ind fuel IH; intros HB Hshort; try done;
    destruct (slice_negative_short xs batch_size HB Hshort) as [Hto Hfrom];
    rewrite ?Hto, ?Hfrom; try (by apply Forall_singleton).
  apply Forall_cons. split; [done|]. by apply IH.
Qed.

Lemma passes_negative fuel : forall m n clk t xs c,
  (batch_size < 0)%Z ->
  readers (evs (passes_ fuel m n clk t xs c)) = []
  \/ exists k, readers (evs (passes_ fuel m n clk t xs c))
               = take (length xs - Z.to_nat (- batch_size)) xs :: replicate k [].
Proof.
  passes_ind fuel IH; intros HB; [by left|..]; right;
    rewrite slice_to_negative by done; try (by exists 0).
  pose proof (passes_stuck fuel m (n + 1)%Z clk (S (S t))
                (Py.slice_from xs batch_size) c' HB
                (length_slice_from_negative xs batch_size HB)) as Hstuck.
  unfold readers in Hstuck.
  eexists. f_equal. symmetry.
  apply replicate_as_Forall_2; [reflexivity|].
  eapply Forall_impl; [exact Hstuck|]. by intros b ->.
Qed.

(** With a batch size of zero or less the loop over a non-empty list is
    never left by [break]. *)
Lemma passes_never_done fuel : forall m n clk t xs c,
  (batch_size <= 0)%Z -> xs <> [] ->
  res (passes_ fuel m n clk t xs c) <> Done tt.
Proof.
  passes_ind fuel IH; intros HB Hxs; try done.
  - apply Nat.eqb_eq, nil_length_inv in Hlen. by apply slice_from_nonpos in Hlen.
  - apply IH; [done|]. by apply slice_from_nonpos.
Qed.

(** *** A list that fits in one batch *)

Lemma passes_single fuel : forall m n clk t xs c,
  (0 < batch_size)%Z -> (Z.of_nat (length xs) <= batch_size)%Z ->
  readers (evs (passes_ (S fuel) m n clk t xs c)) = [xs]
  /\ res (passes_ (S fuel) m n clk t xs c) <> OutOfFuel.
Proof.
  intros m n clk t xs c HB Hfit.
  assert (Hto : Py.slice_to xs batch_size = xs).
  { rewrite slice_to_nonneg by lia. apply take_ge. lia. }
  assert (Hfrom : Py.slice_from xs batch_size = []).
  { rewrite slice_from_nonneg by lia. apply drop_ge. lia. }
  rewrite passes_unfold. cbv zeta. unfold pass. rewrite Hto, Hfrom.
  destruct (FeatureReader xs) as [e|rd]; [done|].
  destruct (multiprocessing rd map_func) as [e|rs]; [done|].
  by destruct (result_func rs c) as [c' [e|]].
Qed.

(** *** Collaborators that work record by record *)

(** When the parallel map applies [f] to every record of its batch and the
    reducer appends the bytes [enc] gives for every result, the sink ends
    with the bytes of the whole list, in its order, whatever the batch
    size. *)
Lemma passes_elementwise (f : Path -> R) (enc : R -> list Byte.byte) fuel :
  forall m n clk t xs c,
  (forall b, exists rd, FeatureReader b = inr rd
                        /\ multiprocessing rd map_func = inr (f <$> b)) ->
  (forall rs c0, result_func rs c0 = (c0 ++ concat (enc <$> rs), None)) ->
  (0 < batch_size)%Z -> length xs < fuel ->
  res (passes_ fuel m n clk t xs c) = Done tt
  /\ sink (passes_ fuel m n clk t xs c)
     = c ++ concat ((fun p => enc (f p)) <$> xs).
Proof.
  passes_ind fuel IH; intros Hmap Hred HB Hfuel; try lia;
    destruct (Hmap (Py.slice_to xs batch_size)) as (rd' & Hfr' & Hmp');
    try congruence;
    rewrite Hfr in Hfr'; injection Hfr' as <-; try congruence;
    rewrite Hmp in Hmp'; injection Hmp' as ->;
    rewrite Hred in Hrf; injection Hrf as <-; try done.
  - split; [done|]. apply Nat.eqb_eq, nil_length_inv in Hlen.
    assert (Hall : Py.slice_to xs batch_size = xs).
    { pose proof (slice_to_from xs batch_size) as Hsf.
      by rewrite Hlen, app_nil_r in Hsf. }
    by rewrite Hall, <- list_fmap_compose.
  - assert (Hxs : xs <> []).
    { intros ->. by rewrite slice_from_nil in Hlen. }
    pose proof (slice_from_pos_shorter xs batch_size HB Hxs).
    destruct (IH m (n + 1)%Z clk (S (S t)) (Py.slice_from xs batch_size)
                (c ++ concat (enc <$> (f <$> Py.slice_to xs batch_size)))
                Hmap Hred HB ltac:(lia)) as [Hres Hsink].
    split; [done|]. rewrite Hsink.
    replace ((fun p => enc (f p)) <$> xs)
      with ((fun p => enc (f p))
              <$> (Py.slice_to xs batch_size ++ Py.slice_from xs batch_size))
      by (by rewrite slice_to_from).
    by rewrite fmap_app, concat_app, app_assoc, <- list_fmap_compose.
Qed.

(** ** More properties of a run *)

(** X2.  The progress shown by the log.  In any run the "Starting batch n/m"
    records count the batches from 1, one record for each batch handed to
    the reader, and all show the total [m = ceil(L/batch_size)] computed
    before the loop.  For a non-empty list, a positive batch size that a
    float holds and collaborators that do not raise, the last record shows
    [m/m]. *)
Theorem progress_counter l (w : W) xs fuel :
  heap w !! l = Some xs ->
  exists tr,
    trace (generic_processor_ l fuel w).2 = trace w ++ tr
    /\ announced tr
       = (fun k => (Z.of_nat (S k),
                    Py.ceil_div (Z.of_nat (length xs)) batch_size))
           <$> seq 0 (length (readers tr))
    /\ (xs <> [] -> (0 < batch_size)%Z -> Py.overflows batch_size = false ->
        no_raise FeatureReader multiprocessing map_func result_func ->
        length xs < fuel ->
        last (announced tr)
        = Some (Py.ceil_div (Z.of_nat (length xs)) batch_size,
                Py.ceil_div (Z.of_nat (length xs)) batch_size)).
Proof.
  intros Hl. rewrite (generic_processor_eq fuel l w xs Hl).
  cbn [fst snd after trace].
  destruct (run_cases fuel (clock w) (ticks w) xs) as [(e0 & -> & He0)|[HB Hov]].
  { cbn. exists [EvOpen outpath].
    split; [done|]. split; [done|].
    intros _ HB Hov. destruct He0 as [[_ ?]|[_ ?]]; [lia|congruence]. }
  rewrite run_nonzero by done. cbn [evs].
  set (m := Py.ceil_div (Z.of_nat (length xs)) batch_size).
  set (p := passes_ fuel m 0%Z (clock w) (ticks w) xs []).
  eexists. split; [reflexivity|].
  change (readers (EvOpen outpath :: ?q)) with (readers q).
  destruct (epilogue_batches (res p) (evs p)) as (-> & _).
  destruct (epilogue_logs (res p) (evs p)) as (-> & _).
  assert (Hann : announced (evs p)
            = (fun k => (Z.of_nat (S k), m)) <$> seq 0 (length (readers (evs p)))).
  { unfold p. rewrite passes_announced. apply list_fmap_ext.
    intros _ k _. cbn. f_equal. lia. }
  split; [exact Hann|].
  intros Hxs HB' _ Hnr Hfuel. rewrite Hann.
  pose proof (passes_batch_count fuel m 0%Z (clock w) (ticks w) xs []
                HB' Hxs Hnr Hfuel) as Hcount.
  fold m p in Hcount.
  pose proof (ceil_div_spec (Z.of_nat (length xs)) batch_size HB') as Hceil.
  fold m in Hceil.
  assert (0 < length xs) by (destruct xs; cbn; [done|lia]).
  destruct (length (readers (evs p))) as [|N]; [nia|].
  rewrite seq_S, fmap_app.
  change ((fun k => (Z.of_nat (S k), m)) <$> [0 + N])
    with [(Z.of_nat (S N), m)].
  rewrite last_snoc. f_equal. f_equal. lia.
Qed.

(** X3.  The sizes shown by the log.  A "Batch of k volumes finished" record
    is written for each batch that was reduced, with the size of that
    batch; when the run returns there is one for every batch and the sizes
    add up to the length of the list. *)
Theorem finished_sizes l (w : W) xs fuel :
  heap w !! l = Some xs ->
  exists tr,
    trace (generic_processor_ l fuel w).2 = trace w ++ tr
    /\ finished tr `prefix_of` (length <$> readers tr)
    /\ ((generic_processor_ l fuel w).1 = Done tt ->
        finished tr = length <$> readers tr
        /\ sum_list (finished tr) = length xs).
Proof.
  intros Hl. rewrite (generic_processor_eq fuel l w xs Hl).
  cbn [fst snd after trace].
  destruct (run_cases fuel (clock w) (ticks w) xs) as [(e0 & -> & He0)|[HB Hov]].
  { cbn. exists [EvOpen outpath].
    split; [done|]. split; [done|]. done. }
  rewrite run_nonzero by done. cbn [evs res].
  set (m := Py.ceil_div (Z.of_nat (length xs)) batch_size).
  set (p := passes_ fuel m 0%Z (clock w) (ticks w) xs []).
  eexists. split; [reflexivity|].
  change (readers (EvOpen outpath :: ?q)) with (readers q).
  destruct (epilogue_batches (res p) (evs p)) as (-> & _).
  destruct (epilogue_logs (res p) (evs p)) as (_ & -> & _).
  destruct (passes_finished fuel m 0%Z (clock w) (ticks w) xs []) as [Hpre Hd].
  fold p in Hpre, Hd. split; [done|].
  intros Hdone. split; [by apply Hd|]. rewrite (Hd Hdone).
  destruct (passes_concat fuel m 0%Z (clock w) (ticks w) xs []) as (rest & Hc & Hr).
  fold p in Hc, Hr. rewrite (Hr Hdone), app_nil_r in Hc.
  transitivity (length (concat (readers (evs p)))); [|by rewrite Hc].
  clear. induction (readers (evs p)) as [|b bs IH]; [done|].
  cbn. rewrite length_app. by rewrite IH.
Qed.

(** X4.  What [result_func] is given.  In any run the k-th call of
    [result_func] gets the results that the parallel map returned for the
    reader built over the k-th batch: results are neither dropped nor
    mixed between batches. *)
Theorem results_pass_through l (w : W) xs fuel :
  heap w !! l = Some xs ->
  exists tr,
    trace (generic_processor_ l fuel w).2 = trace w ++ tr
    /\ forall k rs before after,
         reduces tr !! k = Some (rs, before, after) ->
         exists b rd,
           readers tr !! k = Some b /\ maps tr !! k = Some b
           /\ FeatureReader b = inr rd
           /\ multiprocessing rd map_func = inr rs.
Proof.
  intros Hl. rewrite (generic_processor_eq fuel l w xs Hl).
  cbn [fst snd after trace].
  destruct (run_cases fuel (clock w) (ticks w) xs) as [(e0 & -> & He0)|[HB Hov]].
  { cbn. exists [EvOpen outpath].
    split; [done|]. intros k rs before after Hk. by destruct k. }
  rewrite run_nonzero by done. cbn [evs].
  set (m := Py.ceil_div (Z.of_nat (length xs)) batch_size).
  set (p := passes_ fuel m 0%Z (clock w) (ticks w) xs []).
  eexists. split; [reflexivity|].
  change (readers (EvOpen outpath :: ?q)) with (readers q).
  change (maps (EvOpen outpath :: ?q)) with (maps q).
  change (reduces (EvOpen outpath :: ?q)) with (reduces q).
  destruct (epilogue_batches (res p) (evs p)) as (-> & -> & -> & _).
  apply passes_results.
Qed.

(** X5.  [result_func] raises for the batch that follows the batches
    [good].  The run ends with this same exception; the sink holds what
    this last call left in it, after what the batches [good] wrote; the
    call is the last event, so no "finished" record is written for this
    batch and the sink is not closed.  The batch size is positive and one
    that a float holds. *)
Theorem reducer_error_propagates l (w : W) good rest rd rs e c c' fuel :
  heap w !! l = Some (concat good ++ rest) ->
  (0 < batch_size)%Z ->
  Py.overflows batch_size = false ->
  Forall (fun g => length g = Z.to_nat batch_size) good ->
  rest <> [] ->
  completed FeatureReader multiprocessing map_func result_func good [] = Some c ->
  FeatureReader (Py.slice_to rest batch_size) = inr rd ->
  multiprocessing rd map_func = inr rs ->
  result_func rs c = (c', Some e) ->
  length good < fuel ->
  (generic_processor_ l fuel w).1 = Raised (External e)
  /\ fs (generic_processor_ l fuel w).2 !! outpath = Some c'
  /\ exists tr,
      trace (generic_processor_ l fuel w).2 = trace w ++ tr
      /\ last tr = Some (EvReduce rs c c')
      /\ length (reduces tr) = S (length good)
      /\ finished tr = length <$> good
      /\ closes tr = [].
Proof.
  intros Hl HB Hov Hlen Hrest Hgood Hrd Hmap Hred Hfuel.
  rewrite (generic_processor_eq fuel l w _ Hl).
  cbn [fst snd after trace fs]. rewrite lookup_insert_eq.
  rewrite run_nonzero by (done || lia). cbn [res evs sink].
  set (m := Py.ceil_div _ batch_size).
  replace fuel with (length good + S (fuel - S (length good))) by lia.
  destruct (passes_opens_closes (length good + S (fuel - S (length good))) m 0%Z
              (clock w) (ticks w) (concat good ++ rest) []) as (_ & Hcl).
  destruct (passes_after_good good (S (fuel - S (length good))) m 0%Z (clock w)
              (ticks w) [] rest c (0 + Z.of_nat (length good))%Z
              (ticks w + 2 * length good) HB Hlen Hrest Hgood eq_refl eq_refl)
    as (pre & Hevs & Hres & Hsink & _ & _ & Hreds & Hfin).
  rewrite Hres, Hsink. rewrite Hevs in Hcl |- *.
  rewrite passes_unfold. cbv zeta. unfold pass. rewrite Hrd, Hmap, Hred.
  cbn [res evs sink epilogue].
  split; [done|]. split; [done|].
  eexists. split; [reflexivity|]. rewrite app_nil_r.
  split; [|split; [|split]].
  - by rewrite !app_comm_cons, last_app.
  - unfold reduces in *. cbn. rewrite omap_app, length_app, Hreds. cbn. lia.
  - unfold finished in *. cbn. rewrite omap_app, Hfin. cbn. by rewrite app_nil_r.
  - rewrite passes_unfold in Hcl. cbv zeta in Hcl. unfold pass in Hcl.
    rewrite Hrd, Hmap, Hred in Hcl. exact Hcl.
Qed.

(** X6.  [FeatureReader] raises for the batch that follows the batches
    [good].  The run ends with this same exception; the batch is never
    dispatched to the parallel map nor reduced; the sink holds what the
    batches [good] wrote and is not closed.  The batch size is positive
    and one that a float holds. *)
Theorem reader_error_propagates l (w : W) good rest e c fuel :
  heap w !! l = Some (concat good ++ rest) ->
  (0 < batch_size)%Z ->
  Py.overflows batch_size = false ->
  Forall (fun g => length g = Z.to_nat batch_size) good ->
  rest <> [] ->
  completed FeatureReader multiprocessing map_func result_func good [] = Some c ->
  FeatureReader (Py.slice_to rest batch_size) = inl e ->
  length good < fuel ->
  (generic_processor_ l fuel w).1 = Raised (External e)
  /\ fs (generic_processor_ l fuel w).2 !! outpath = Some c
  /\ exists tr,
      trace (generic_processor_ l fuel w).2 = trace w ++ tr
      /\ last tr = Some (EvReader (Py.slice_to rest batch_size))
      /\ maps tr = good
      /\ length (reduces tr) = length good
      /\ closes tr = [].
Proof.
  intros Hl HB Hov Hlen Hrest Hgood Hrd Hfuel.
  rewrite (generic_processor_eq fuel l w _ Hl).
  cbn [fst snd after trace fs]. rewrite lookup_insert_eq.
  rewrite run_nonzero by (done || lia). cbn [res evs sink].
  set (m := Py.ceil_div _ batch_size).
  replace fuel with (length good + S (fuel - S (length good))) by lia.
  destruct (passes_opens_closes (length good + S (fuel - S (length good))) m 0%Z
              (clock w) (ticks w) (concat good ++ rest) []) as (_ & Hcl).
  destruct (passes_after_good good (S (fuel - S (length good))) m 0%Z (clock w)
              (ticks w) [] rest c (0 + Z.of_nat (length good))%Z
              (ticks w + 2 * length good) HB Hlen Hrest Hgood eq_refl eq_refl)
    as (pre & Hevs & Hres & Hsink & _ & Hmps & Hreds & _).
  rewrite Hres, Hsink. rewrite Hevs in Hcl |- *.
  rewrite passes_unfold. cbv zeta. unfold pass. rewrite Hrd.
  cbn [res evs sink epilogue].
  split; [done|]. split; [done|].
  eexists. split; [reflexivity|]. rewrite app_nil_r.
  split; [|split; [|split]].
  - by rewrite !app_comm_cons, last_app.
  - unfold maps in *. cbn. rewrite omap_app, Hmps. cbn. by rewrite app_nil_r.
  - unfold reduces in *. cbn. rewrite omap_app, length_app, Hreds. cbn. lia.
  - rewrite passes_unfold in Hcl. cbv zeta in Hcl. unfold pass in Hcl.
    rewrite Hrd in Hcl. exact Hcl.
Qed.

(** X7.  A negative batch size.  The first batch is the list without its
    last [- batch_size] items, and every batch after it is empty: these
    last items are never handed to the reader, however long the run goes
    on.  And for a non-empty list the run never returns: it raises or it
    goes on for ever. *)
Theorem negative_batch_size_batches l (w : W) xs fuel :
  heap w !! l = Some xs ->
  (batch_size < 0)%Z ->
  exists tr,
    trace (generic_processor_ l fuel w).2 = trace w ++ tr
    /\ (readers tr = []
        \/ exists k, readers tr
                     = take (length xs - Z.to_nat (- batch_size)) xs
                       :: replicate k [])
    /\ concat (readers tr)
         `prefix_of` take (length xs - Z.to_nat (- batch_size)) xs
    /\ (xs <> [] -> (generic_processor_ l fuel w).1 <> Done tt).
Proof.
  intros Hl HB. rewrite (generic_processor_eq fuel l w xs Hl).
  cbn [fst snd after trace].
  destruct (run_cases fuel (clock w) (ticks w) xs) as [(e0 & -> & He0)|[_ Hov]].
  { cbn. exists [EvOpen outpath].
    split; [done|]. split; [by left|]. split; [apply prefix_nil|done]. }
  rewrite run_nonzero by (done || lia). cbn [res evs].
  set (m := Py.ceil_div (Z.of_nat (length xs)) batch_size).
  set (p := passes_ fuel m 0%Z (clock w) (ticks w) xs []).
  eexists. split; [reflexivity|].
  change (readers (EvOpen outpath :: ?q)) with (readers q).
  destruct (epilogue_batches (res p) (evs p)) as (-> & _).
  pose proof (passes_negative fuel m 0%Z (clock w) (ticks w) xs [] HB) as Hneg.
  fold p in Hneg. split; [exact Hneg|]. split.
  - destruct Hneg as [-> | [k ->]]; [apply prefix_nil|].
    cbn. assert (concat (replicate k (@nil Path)) = []) as ->.
    { induction k; [done|]. done. }
    by rewrite app_nil_r.
  - intros Hxs. apply passes_never_done; [lia|done].
Qed.

(** X8.  A batch size of zero.  The exception comes after the output file
    is opened for writing: the file is there, empty, whatever it held
    before; no other file is touched, no list is made, the clock is not
    read, and the file is not closed. *)
Theorem zero_batch_size_truncates l (w : W) xs fuel :
  heap w !! l = Some xs ->
  batch_size = 0%Z ->
  (generic_processor_ l fuel w).1 = Raised ZeroDivisionError
  /\ fs (generic_processor_ l fuel w).2 = <[outpath := []]> (fs w)
  /\ heap (generic_processor_ l fuel w).2 = heap w
  /\ ticks (generic_processor_ l fuel w).2 = ticks w
  /\ closes (drop (length (trace w)) (trace (generic_processor_ l fuel w).2)) = [].
Proof.
  intros Hl HB. rewrite (generic_processor_eq fuel l w xs Hl).
  cbn [fst snd after trace fs heap ticks]. rewrite run_zero by done.
  cbn. by rewrite app_nil_r, drop_app_length.
Qed.

(** X9.  A list that fits in one batch.  With a positive batch size that a
    float holds and a list of at most [batch_size] items, the empty list
    included, the whole list is the only batch and one pass is enough. *)
Theorem single_batch l (w : W) xs fuel :
  heap w !! l = Some xs ->
  (0 < batch_size)%Z ->
  Py.overflows batch_size = false ->
  (Z.of_nat (length xs) <= batch_size)%Z ->
  (generic_processor_ l (S fuel) w).1 <> OutOfFuel
  /\ exists tr,
      trace (generic_processor_ l (S fuel) w).2 = trace w ++ tr
      /\ readers tr = [xs].
Proof.
  intros Hl HB Hov Hfit. rewrite (generic_processor_eq (S fuel) l w xs Hl).
  cbn [fst snd after trace]. rewrite run_nonzero by (done || lia). cbn [res evs].
  set (m := Py.ceil_div (Z.of_nat (length xs)) batch_size).
  destruct (passes_single fuel m 0%Z (clock w) (ticks w) xs [] HB Hfit)
    as [Hrd Hend].
  split; [done|]. eexists. split; [reflexivity|].
  change (readers (EvOpen outpath :: ?q)) with (readers q).
  destruct (epilogue_batches
              (res (passes_ (S fuel) m 0%Z (clock w) (ticks w) xs []))
              (evs (passes_ (S fuel) m 0%Z (clock w) (ticks w) xs [])))
    as (-> & _).
  exact Hrd.
Qed.

(** X10.  A reducer that appends.  When every call of [result_func] leaves
    the sink as it found it followed by the bytes [enc] gives for its
    results, the output file holds the bytes of the calls one after the
    other, in the order of the batches, and nothing else, however the run
    ends. *)
Theorem appending_reducer_output (enc : list R -> list Byte.byte)
    l (w : W) xs fuel :
  heap w !! l = Some xs ->
  (forall rs c, (result_func rs c).1 = c ++ enc rs) ->
  exists tr,
    trace (generic_processor_ l fuel w).2 = trace w ++ tr
    /\ fs (generic_processor_ l fuel w).2 !! outpath
       = Some (concat (enc <$> reduced tr)).
Proof.
  intros Hl Happ. rewrite (generic_processor_eq fuel l w xs Hl).
  cbn [fst snd after trace fs]. rewrite lookup_insert_eq.
  destruct (run_cases fuel (clock w) (ticks w) xs) as [(e0 & -> & He0)|[HB Hov]].
  { by eexists. }
  rewrite run_nonzero by done. cbn [evs sink].
  set (m := Py.ceil_div (Z.of_nat (length xs)) batch_size).
  set (p := passes_ fuel m 0%Z (clock w) (ticks w) xs []).
  eexists. split; [reflexivity|].
  destruct (epilogue_logs (res p) (evs p)) as (_ & _ & ->).
  unfold p. by rewrite (passes_appends enc).
Qed.

(** X11.  The batch size does not show in the output.  When the parallel
    map applies [f] to every record of its batch and [result_func] appends
    the bytes [enc] gives for every result, the run returns and the output
    file holds the bytes of the identifiers of the list, in its order: the
    same file for every positive batch size that a float holds. *)
Theorem batch_size_transparent (f : Path -> R) (enc : R -> list Byte.byte)
    l (w : W) xs fuel :
  heap w !! l = Some xs ->
  (forall b, exists rd, FeatureReader b = inr rd
                        /\ multiprocessing rd map_func = inr (f <$> b)) ->
  (forall rs c, result_func rs c = (c ++ concat (enc <$> rs), None)) ->
  (0 < batch_size)%Z ->
  Py.overflows batch_size = false ->
  length xs < fuel ->
  (generic_processor FeatureReader multiprocessing st_size map_func result_func
     outpath batch_size l fuel w).1 = Done tt
  /\ fs (generic_processor_ l fuel w).2 !! outpath
     = Some (concat ((fun p => enc (f p)) <$> xs)).
Proof.
  intros Hl Hmap Hred HB Hov Hfuel. rewrite (generic_processor_eq fuel l w xs Hl).
  cbn [fst snd after trace fs]. rewrite lookup_insert_eq.
  rewrite run_nonzero by (done || lia). cbn [res sink].
  destruct (passes_elementwise f enc fuel
              (Py.ceil_div (Z.of_nat (length xs)) batch_size) 0%Z
              (clock w) (ticks w) xs [] Hmap Hred HB Hfuel) as [-> ->].
  done.
Qed.

(** X12.  A batch size that no float holds, [2^1024 - 2^970] or more in
    absolute value.  The division raises [OverflowError] after the output
    file is opened for writing and before the loop: the file is there,
    empty, whatever it held before and whatever the list; no other file is
    touched, no batch is taken, the clock is not read, and the file is not
    closed. *)
Theorem overflowing_batch_size_truncates l (w : W) xs fuel :
  heap w !! l = Some xs ->
  Py.overflows batch_size = true ->
  (generic_processor_ l fuel w).1 = Raised OverflowError
  /\ trace (generic_processor_ l fuel w).2 = trace w ++ [EvOpen outpath]
  /\ fs (generic_processor_ l fuel w).2 = <[outpath := []]> (fs w)
  /\ heap (generic_processor_ l fuel w).2 = heap w
  /\ ticks (generic_processor_ l fuel w).2 = ticks w.
Proof.
  intros Hl HB. rewrite (generic_processor_eq fuel l w xs Hl).
  cbn [fst snd after trace fs heap ticks]. rewrite run_overflow by done.
  cbn. by rewrite app_nil_r.
Qed.

End Denotation.

(** ** Two runs *)

Section Determinism.

Context {Path R E Reader MapFunc : Type}.
Variable FeatureReader : list Path -> E + Reader.
Variable multiprocessing : Reader -> MapFunc -> E + list R.
Variable st_size : list Byte.byte -> Z.
Variable map_func : MapFunc.
Variable result_func : list R -> list Byte.byte -> list Byte.byte * option E.
Variable batch_size : Z.

Abbreviation generic_processor_to out :=
  (generic_processor FeatureReader multiprocessing st_size map_func result_func
                     out batch_size).

(** C7.  Two runs with the same collaborators, the same batch size and lists
    of the same content end in the same way and leave the same bytes in
    their outputs, whatever the two output paths, whatever the files held
    before, whatever the clock shows and wherever the lists are in the
    store; and a run writes to no file but its own output. *)
Theorem same_inputs_same_output out1 out2 l1 l2 (w1 w2 : World Path R) xs fuel :
  heap w1 !! l1 = Some xs ->
  heap w2 !! l2 = Some xs ->
  (generic_processor_to out1 l1 fuel w1).1 = (generic_processor_to out2 l2 fuel w2).1
  /\ fs (generic_processor_to out1 l1 fuel w1).2 !! out1
     = fs (generic_processor_to out2 l2 fuel w2).2 !! out2
  /\ is_Some (fs (generic_processor_to out1 l1 fuel w1).2 !! out1)
  /\ (forall other, other <> out2 ->
        fs (generic_processor_to out2 l2 fuel w2).2 !! other = fs w2 !! other).
Proof.
  intros Hl1 Hl2.
  rewrite (generic_processor_eq FeatureReader multiprocessing st_size map_func
             result_func out1 batch_size fuel l1 w1 xs Hl1).
  rewrite (generic_processor_eq FeatureReader multiprocessing st_size map_func
             result_func out2 batch_size fuel l2 w2 xs Hl2).
  cbn [fst snd after fs]. rewrite !lookup_insert_eq.
  assert (Hsame :
    res (run FeatureReader multiprocessing st_size map_func result_func out1
             batch_size fuel (clock w1) (ticks w1) xs)
    = res (run FeatureReader multiprocessing st_size map_func result_func out2
               batch_size fuel (clock w2) (ticks w2) xs)
    /\ sink (run FeatureReader multiprocessing st_size map_func result_func out1
                 batch_size fuel (clock w1) (ticks w1) xs)
       = sink (run FeatureReader multiprocessing st_size map_func result_func out2
                   batch_size fuel (clock w2) (ticks w2) xs)).
  { destruct (Py.overflows batch_size) eqn:Hov; [by rewrite !run_overflow|].
    destruct (decide (batch_size = 0%Z)) as [HB|HB].
    - by rewrite !run_zero.
    - rewrite !run_nonzero by done. cbn [res sink]. apply passes_indep. }
  destruct Hsame as [-> ->].
  split; [done|]. split; [done|]. split; [by eexists|].
  intros other Hother. by apply lookup_insert_ne.
Qed.

End Determinism.

(** ** The claims on an instance *)

Section Instance.

Import Demo.

Abbreviation five := [1; 2; 3; 4; 5]%nat.

Lemma star_no_raise : no_raise FeatureReader multiprocessing star append.
Proof.
  split; [|split].
  - intros b. by exists b.
  - intros rd. induction rd as [|p rd [rs IH]]; cbn; [by eexists|].
    rewrite IH. by eexists.
  - done.
Qed.

(** The run of the spec: the identifiers 1 to 2500 in batches of 1000 make
    three batches of 1000, 1000 and 500 items, read, mapped and reduced in
    this order, and the sink is closed after the third. *)
Example identifiers_2500_batches_1000 :
  (exec star "out.bz2" (seq 1 2500) 1000 3).1 = Done tt
  /\ length <$> readers (trace (exec star "out.bz2" (seq 1 2500) 1000 3).2)
     = [1000; 1000; 500]%nat
  /\ head <$> readers (trace (exec star "out.bz2" (seq 1 2500) 1000 3).2)
     = [Some 1; Some 1001; Some 2001]%nat
  /\ length <$> (reduces (trace (exec star "out.bz2" (seq 1 2500) 1000 3).2)).*1.*1
     = [1000; 1000; 500]%nat
  /\ last (trace (exec star "out.bz2" (seq 1 2500) 1000 3).2)
     = Some (EvClose "out.bz2")
  /\ length <$> fs (exec star "out.bz2" (seq 1 2500) 1000 3).2 !! "out.bz2"
     = Some 2500%nat.
Proof. vm_compute. done. Qed.

(** The other run of the spec: the mapping function raises for the
    identifier 1501.  The first batch is reduced, the map of the second
    raises, and the sink holds the output of the first batch only. *)
Example identifier_1501_raises :
  (exec (corrupt 1501) "out.bz2" (seq 1 2500) 1000 3).1
  = Raised (External "corrupt record"%string)
  /\ length <$> maps (trace (exec (corrupt 1501) "out.bz2" (seq 1 2500) 1000 3).2)
     = [1000; 1000]%nat
  /\ length (reduces (trace (exec (corrupt 1501) "out.bz2" (seq 1 2500) 1000 3).2))
     = 1%nat
  /\ closes (trace (exec (corrupt 1501) "out.bz2" (seq 1 2500) 1000 3).2) = []
  /\ fs (exec (corrupt 1501) "out.bz2" (seq 1 2500) 1000 3).2 !! "out.bz2"
     = Some (replicate 1000 Byte.x2a).
Proof. vm_compute. done. Qed.

(** A negative batch size: the first batch is all but the last two items,
    and every later batch is empty while two items remain. *)
Example negative_batch_size :
  (exec star "out.bz2" five (-2) 4).1 = OutOfFuel
  /\ readers (trace (exec star "out.bz2" five (-2) 4).2)
     = [[1; 2; 3]; []; []; []]%nat
  /\ last (heap (exec star "out.bz2" five (-2) 4).2) = Some [4; 5]%nat.
Proof. vm_compute. done. Qed.

Lemma paths_not_mutated_witness :
  heap (world five) !! 0%nat = Some five
  /\ (heap (exec star "out.bz2" five 2 10).2 !! 0%nat = Some five
      /\ forall l' ys, heap (world five) !! l' = Some ys ->
           heap (exec star "out.bz2" five 2 10).2 !! l' = Some ys).
Proof.
  split; [reflexivity|].
  apply (paths_not_mutated FeatureReader multiprocessing st_size star append
           "out.bz2" 2 0%nat (world five) five 10).
  reflexivity.
Defined.

Lemma sink_discipline_witness :
  heap (world five) !! 0%nat = Some five
  /\ exists tr c,
      trace (exec star "out.bz2" five 2 10).2
      = trace (world five) ++ EvOpen "out.bz2" :: tr
      /\ opens tr = []
      /\ fs (exec star "out.bz2" five 2 10).2 !! "out.bz2" = Some c
      /\ written_by append [] (reduces tr) c
      /\ length (reduces tr) <= length (maps tr) <= length (readers tr)
      /\ ((exec star "out.bz2" five 2 10).1 = Done tt ->
          exists mid, tr = mid ++ [EvClose "out.bz2"] /\ closes mid = []
                      /\ length (reduces tr) = length (readers tr))
      /\ ((exec star "out.bz2" five 2 10).1 <> Done tt -> closes tr = []).
Proof.
  split; [reflexivity|].
  apply (sink_discipline FeatureReader multiprocessing st_size star append
           "out.bz2" 2 0%nat (world five) five 10).
  reflexivity.
Defined.

Lemma batches_one_at_a_time_witness :
  heap (world five) !! 0%nat = Some five
  /\ exists tr c,
      trace (exec star "out.bz2" five 2 10).2 = trace (world five) ++ tr
      /\ in_turn tr
      /\ (forall pre b post, tr = pre ++ EvMap b :: post ->
            length (reduces pre) = length (maps pre))
      /\ fs (exec star "out.bz2" five 2 10).2 !! "out.bz2" = Some c
      /\ written_by append [] (reduces tr) c.
Proof.
  split; [reflexivity|].
  apply (batches_one_at_a_time FeatureReader multiprocessing st_size star append
           "out.bz2" 2 0%nat (world five) five 10).
  reflexivity.
Defined.



(** The cases of C9 on the list [1; 2; 3; 4; 5]: a batch size of 0
    raises; the loop alone, entered with a batch size of 0 in the world
    the failed run left, does not end; a batch size of -2 does not end; a
    batch size of 2 ends; a batch size of [- 2^1024] raises. *)
Lemma termination_by_batch_size_witness :
  heap (world five) !! 0%nat = Some five
  /\ five <> []
  /\ no_raise FeatureReader multiprocessing star append
  /\ (forall fuel,
        (exec star "out.bz2" five 0 fuel).1 = Raised ZeroDivisionError
        /\ trace (exec star "out.bz2" five 0 fuel).2
           = trace (world five) ++ [EvOpen "out.bz2"])
  /\ (Py.slice_to five 0 = [] /\ Py.slice_from five 0 = five)
  /\ loops_forever
       (fun fuel => while_true FeatureReader multiprocessing st_size star append
                      "out.bz2" 0 fuel "out.bz2" 0 0 0%nat)
       (exec star "out.bz2" five 0 1).2
  /\ Py.overflows (-2) = false
  /\ loops_forever (generic_processor FeatureReader multiprocessing st_size
                      star append "out.bz2" (-2) 0%nat) (world five)
  /\ terminates (generic_processor FeatureReader multiprocessing st_size
                   star append "out.bz2" 2 0%nat) (world five)
  /\ Py.overflows (- (2 ^ 1024)) = true
  /\ (forall fuel,
        (exec star "out.bz2" five (- (2 ^ 1024)) fuel).1 = Raised OverflowError
        /\ trace (exec star "out.bz2" five (- (2 ^ 1024)) fuel).2
           = trace (world five) ++ [EvOpen "out.bz2"]).
Proof.
  assert (H1 : heap (world five) !! 0%nat = Some five) by reflexivity.
  assert (H1' : heap (exec star "out.bz2" five 0 1).2 !! 0%nat = Some five)
    by reflexivity.
  assert (H2 : five <> []) by discriminate.
  pose proof star_no_raise as H3.
  assert (H4 : Py.overflows (-2) = false) by reflexivity.
  assert (H5 : Py.overflows (- (2 ^ 1024)) = true) by reflexivity.
  split; [exact H1|]. split; [exact H2|]. split; [exact H3|].
  destruct (termination_by_batch_size FeatureReader multiprocessing st_size star
              append "out.bz2" 0 0%nat (world five) five H1) as (Hzero & _).
  destruct (termination_by_batch_size FeatureReader multiprocessing st_size star
              append "out.bz2" 0 0%nat (exec star "out.bz2" five 0 1).2 five H1')
    as (_ & Hloop & _).
  destruct (termination_by_batch_size FeatureReader multiprocessing st_size star
              append "out.bz2" (-2) 0%nat (world five) five H1)
    as (_ & _ & Hneg & _).
  destruct (termination_by_batch_size FeatureReader multiprocessing st_size star
              append "out.bz2" 2 0%nat (world five) five H1)
    as (_ & _ & _ & Hpos & _).
  destruct (termination_by_batch_size FeatureReader multiprocessing st_size star
              append "out.bz2" (- (2 ^ 1024)) 0%nat (world five) five H1)
    as (_ & _ & _ & _ & Hover).
  destruct (Hloop eq_refl H2 H3) as (Hto & Hfrom & Hnever).
  split; [exact (Hzero eq_refl)|]. split; [exact (conj Hto Hfrom)|].
  split; [exact (Hnever 0%Z 0%Z [] eq_refl)|].
  split; [exact H4|].
  split; [exact (Hneg eq_refl H4 H2 H3)|].
  split; [exact (proj2 (Hpos eq_refl))|].
  split; [exact H5|exact (Hover H5)].
Defined.

(** The claim of C9 fails with a batch size of zero: the run ends, with
    [ZeroDivisionError]. *)
Lemma zero_batch_size_does_not_loop :
  (exec star "out.bz2" [7] 0 1).1 = Raised ZeroDivisionError
  /\ ~ loops_forever (generic_processor FeatureReader multiprocessing st_size
                        star append "out.bz2" 0 0%nat) (world [7]).
Proof.
  split; [reflexivity|]. intros Hloop. specialize (Hloop 1). discriminate Hloop.
Qed.

Lemma empty_list_single_pass_witness :
  heap (world []) !! 0%nat = Some []
  /\ default_batch_size <> 0%Z
  /\ Py.overflows default_batch_size = false
  /\ FeatureReader [] = inr []
  /\ multiprocessing [] star = inr []
  /\ append [] [] = ([], None)
  /\ (exec star "out.bz2" [] default_batch_size 1).1 = Done tt
  /\ trace (exec star "out.bz2" [] default_batch_size 1).2
     = trace (world []) ++
       [EvOpen "out.bz2"; EvLog INFO ScriptStarted;
        EvLog INFO (StartingBatch 1 0); EvReader []; EvMap []; EvReduce [] [] [];
        EvLog INFO (BatchFinished 0 (clock (world []) (S (ticks (world []))))
                                  (clock (world []) (ticks (world []))));
        EvLog DEBUG (OutputFilesize (st_size []));
        EvLog INFO ScriptDone; EvClose "out.bz2"]
  /\ fs (exec star "out.bz2" [] default_batch_size 1).2 !! "out.bz2" = Some [].
Proof.
  assert (Hb : default_batch_size <> 0%Z) by done.
  do 6 (split; [done|]).
  exact (empty_list_single_pass FeatureReader multiprocessing st_size star append
           "out.bz2" default_batch_size 0%nat (world []) 0 [] []
           eq_refl Hb eq_refl eq_refl eq_refl eq_refl).
Defined.

Lemma empty_list_batch_count_witness :
  heap (world []) !! 0%nat = Some []
  /\ (0 < default_batch_size)%Z
  /\ Py.overflows default_batch_size = false
  /\ exists tr,
      trace (exec star "out.bz2" [] default_batch_size 1).2 = trace (world []) ++ tr
      /\ readers tr = [[]]
      /\ announced tr = [(1%Z, 0%Z)]
      /\ Py.ceil_div (Z.of_nat (length (@nil nat))) default_batch_size = 0%Z
      /\ Z.of_nat (length (readers tr))
         <> Py.ceil_div (Z.of_nat (length (@nil nat))) default_batch_size.
Proof.
  split; [reflexivity|]. split; [reflexivity|]. split; [reflexivity|].
  apply (empty_list_batch_count FeatureReader multiprocessing st_size star append
           "out.bz2" default_batch_size 0%nat (world []) 0); reflexivity.
Defined.

Lemma batches_partition_witness :
  heap (world five) !! 0%nat = Some five
  /\ (0 < 2)%Z
  /\ Py.overflows 2 = false
  /\ no_raise FeatureReader multiprocessing star append
  /\ length five < 10
  /\ exists tr,
      trace (exec star "out.bz2" five 2 10).2 = trace (world five) ++ tr
      /\ (forall k bk, readers tr !! k = Some bk ->
            bk = take (Z.to_nat 2) (drop (k * Z.to_nat 2) five))
      /\ maps tr `prefix_of` readers tr
      /\ (exists rest, concat (readers tr) ++ rest = five
            /\ ((exec star "out.bz2" five 2 10).1 = Done tt -> rest = []))
      /\ (no_raise FeatureReader multiprocessing star append ->
          length five < 10 ->
          (exec star "out.bz2" five 2 10).1 = Done tt
          /\ concat (readers tr) = five
          /\ maps tr = readers tr
          /\ sum_list (length <$> readers tr) = length five).
Proof.
  split; [reflexivity|]. split; [reflexivity|]. split; [reflexivity|].
  split; [exact star_no_raise|]. split; [cbn; lia|].
  apply (batches_partition FeatureReader multiprocessing st_size star append
           "out.bz2" 2 0%nat (world five) five 10); reflexivity.
Defined.

(** The identifiers 1 to 25 in batches of 10, with a mapping function that
    raises for 16: the first batch is complete, the second fails. *)
Lemma map_error_propagates_witness :
  heap (world (concat [seq 1 10] ++ seq 11 15)) !! 0%nat
  = Some (concat [seq 1 10] ++ seq 11 15)
  /\ (0 < 10)%Z
  /\ Py.overflows 10 = false
  /\ Forall (fun g => length g = Z.to_nat 10) [seq 1 10]
  /\ seq 11 15 <> []
  /\ completed FeatureReader multiprocessing (corrupt 16) append [seq 1 10] []
     = Some (replicate 10 Byte.x2a)
  /\ FeatureReader (Py.slice_to (seq 11 15) 10) = inr (seq 11 10)
  /\ multiprocessing (seq 11 10) (corrupt 16) = inl "corrupt record"%string
  /\ length [seq 1 10] < 3
  /\ (exec (corrupt 16) "out.bz2" (concat [seq 1 10] ++ seq 11 15) 10 3).1
     = Raised (External "corrupt record"%string)
  /\ fs (exec (corrupt 16) "out.bz2" (concat [seq 1 10] ++ seq 11 15) 10 3).2
       !! "out.bz2" = Some (replicate 10 Byte.x2a)
  /\ exists tr,
      trace (exec (corrupt 16) "out.bz2" (concat [seq 1 10] ++ seq 11 15) 10 3).2
      = trace (world (concat [seq 1 10] ++ seq 11 15)) ++ tr
      /\ maps tr = [seq 1 10] ++ [Py.slice_to (seq 11 15) 10]
      /\ length (reduces tr) = length [seq 1 10]
      /\ last tr = Some (EvMap (Py.slice_to (seq 11 15) 10))
      /\ closes tr = [].
Proof.
  assert (H1 : heap (world (concat [seq 1 10] ++ seq 11 15)) !! 0%nat
               = Some (concat [seq 1 10] ++ seq 11 15)) by reflexivity.
  assert (H2 : (0 < 10)%Z) by reflexivity.
  assert (Hov : Py.overflows 10 = false) by reflexivity.
  assert (H3 : Forall (fun g => length g = Z.to_nat 10) [seq 1 10]).
  { apply Forall_singleton. reflexivity. }
  assert (H4 : seq 11 15 <> []) by discriminate.
  assert (H5 : completed FeatureReader multiprocessing (corrupt 16) append
                 [seq 1 10] [] = Some (replicate 10 Byte.x2a)) by reflexivity.
  assert (H6 : FeatureReader (Py.slice_to (seq 11 15) 10) = inr (seq 11 10))
    by reflexivity.
  assert (H7 : multiprocessing (seq 11 10) (corrupt 16)
               = inl "corrupt record"%string) by reflexivity.
  assert (H8 : length [seq 1 10] < 3) by (cbn; lia).
  do 9 (split; [assumption|]).
  exact (map_error_propagates FeatureReader multiprocessing st_size (corrupt 16)
           append "out.bz2" 10 0%nat _ [seq 1 10] (seq 11 15)
           (seq 11 10) "corrupt record"%string (replicate 10 Byte.x2a) 3
           H1 H2 Hov H3 H4 H5 H6 H7 H8).
Defined.

Lemma same_inputs_same_output_witness :
  heap (world five) !! 0%nat = Some five
  /\ heap (exec star "first.bz2" five 2 10).2 !! 0%nat = Some five
  /\ (exec star "first.bz2" five 2 10).1
     = (generic_processor FeatureReader multiprocessing st_size star append
          "second.bz2" 2 0%nat 10 (exec star "first.bz2" five 2 10).2).1
  /\ fs (exec star "first.bz2" five 2 10).2 !! "first.bz2"
     = fs (generic_processor FeatureReader multiprocessing st_size star append
             "second.bz2" 2 0%nat 10 (exec star "first.bz2" five 2 10).2).2
         !! "second.bz2"
  /\ is_Some (fs (exec star "first.bz2" five 2 10).2 !! "first.bz2")
  /\ (forall other, other <> "second.bz2" ->
        fs (generic_processor FeatureReader multiprocessing st_size star append
              "second.bz2" 2 0%nat 10 (exec star "first.bz2" five 2 10).2).2
          !! other
        = fs (exec star "first.bz2" five 2 10).2 !! other).
Proof.
  assert (H1 : heap (world five) !! 0%nat = Some five) by reflexivity.
  assert (H2 : heap (exec star "first.bz2" five 2 10).2 !! 0%nat = Some five)
    by reflexivity.
  split; [exact H1|]. split; [exact H2|].
  exact (same_inputs_same_output FeatureReader multiprocessing st_size star append
           2 "first.bz2" "second.bz2" 0%nat 0%nat (world five)
           (exec star "first.bz2" five 2 10).2 five 10 H1 H2).
Defined.

(** *** The other properties *)

Abbreviation twenty_five := (concat [seq 1 10] ++ seq 11 15).

Lemma nonempty_list_batch_count_witness :
  heap (world five) !! 0%nat = Some five
  /\ five <> []
  /\ (0 < 2)%Z
  /\ Py.overflows 2 = false
  /\ no_raise FeatureReader multiprocessing star append
  /\ length five < 10
  /\ exists tr,
      trace (exec star "out.bz2" five 2 10).2 = trace (world five) ++ tr
      /\ (exec star "out.bz2" five 2 10).1 = Done tt
      /\ Z.of_nat (length (readers tr)) = Py.ceil_div (Z.of_nat (length five)) 2
      /\ sum_list (length <$> readers tr) = length five
      /\ forall k bk, readers tr !! k = Some bk ->
           Z.of_nat (length bk)
           = if decide (S k = length (readers tr))
             then if (Z.of_nat (length five) mod 2 =? 0)%Z
                  then 2%Z
                  else (Z.of_nat (length five) mod 2)%Z
             else 2%Z.
Proof.
  assert (H1 : heap (world five) !! 0%nat = Some five) by reflexivity.
  assert (H2 : five <> []) by discriminate.
  assert (H3 : (0 < 2)%Z) by reflexivity.
  assert (Hov : Py.overflows 2 = false) by reflexivity.
  assert (H5 : length five < 10) by (cbn; lia).
  exact (conj H1 (conj H2 (conj H3 (conj Hov (conj star_no_raise (conj H5
           (nonempty_list_batch_count FeatureReader multiprocessing st_size star
              append "out.bz2" 2 0%nat (world five) five 10
              H1 H2 H3 Hov star_no_raise H5))))))).
Defined.

Lemma progress_counter_witness :
  heap (world five) !! 0%nat = Some five
  /\ exists tr,
      trace (exec star "out.bz2" five 2 10).2 = trace (world five) ++ tr
      /\ announced tr
         = (fun k => (Z.of_nat (S k), Py.ceil_div (Z.of_nat (length five)) 2))
             <$> seq 0 (length (readers tr))
      /\ (five <> [] -> (0 < 2)%Z -> Py.overflows 2 = false ->
          no_raise FeatureReader multiprocessing star append ->
          length five < 10 ->
          last (announced tr)
          = Some (Py.ceil_div (Z.of_nat (length five)) 2,
                  Py.ceil_div (Z.of_nat (length five)) 2)).
Proof.
  assert (H1 : heap (world five) !! 0%nat = Some five) by reflexivity.
  exact (conj H1 (progress_counter FeatureReader multiprocessing st_size star
                    append "out.bz2" 2 0%nat (world five) five 10 H1)).
Defined.

Lemma finished_sizes_witness :
  heap (world five) !! 0%nat = Some five
  /\ exists tr,
      trace (exec star "out.bz2" five 2 10).2 = trace (world five) ++ tr
      /\ finished tr `prefix_of` (length <$> readers tr)
      /\ ((exec star "out.bz2" five 2 10).1 = Done tt ->
          finished tr = length <$> readers tr
          /\ sum_list (finished tr) = length five).
Proof.
  assert (H1 : heap (world five) !! 0%nat = Some five) by reflexivity.
  exact (conj H1 (finished_sizes FeatureReader multiprocessing st_size star
                    append "out.bz2" 2 0%nat (world five) five 10 H1)).
Defined.

Lemma results_pass_through_witness :
  heap (world five) !! 0%nat = Some five
  /\ exists tr,
      trace (exec star "out.bz2" five 2 10).2 = trace (world five) ++ tr
      /\ forall k rs before after,
           reduces tr !! k = Some (rs, before, after) ->
           exists b rd,
             readers tr !! k = Some b /\ maps tr !! k = Some b
             /\ FeatureReader b = inr rd
             /\ multiprocessing rd star = inr rs.
Proof.
  assert (H1 : heap (world five) !! 0%nat = Some five) by reflexivity.
  exact (conj H1 (results_pass_through FeatureReader multiprocessing st_size star
                    append "out.bz2" 2 0%nat (world five) five 10 H1)).
Defined.

(** The identifiers 1 to 25 in batches of 10, with a sink of 15 bytes: the
    first batch is written, the second one half, and the reducer raises. *)
Lemma reducer_error_propagates_witness :
  heap (world twenty_five) !! 0%nat = Some twenty_five
  /\ (0 < 10)%Z
  /\ Py.overflows 10 = false
  /\ Forall (fun g => length g = Z.to_nat 10) [seq 1 10]
  /\ seq 11 15 <> []
  /\ completed FeatureReader multiprocessing star (append_upto 15) [seq 1 10] []
     = Some (replicate 10 Byte.x2a)
  /\ FeatureReader (Py.slice_to (seq 11 15) 10) = inr (seq 11 10)
  /\ multiprocessing (seq 11 10) star = inr (replicate 10 Byte.x2a)
  /\ append_upto 15 (replicate 10 Byte.x2a) (replicate 10 Byte.x2a)
     = (replicate 15 Byte.x2a, Some "disk full"%string)
  /\ length [seq 1 10] < 3
  /\ (generic_processor FeatureReader multiprocessing st_size star
        (append_upto 15) "out.bz2" 10 0%nat 3 (world twenty_five)).1
     = Raised (External "disk full"%string)
  /\ fs (generic_processor FeatureReader multiprocessing st_size star
           (append_upto 15) "out.bz2" 10 0%nat 3 (world twenty_five)).2
       !! "out.bz2" = Some (replicate 15 Byte.x2a)
  /\ exists tr,
      trace (generic_processor FeatureReader multiprocessing st_size star
               (append_upto 15) "out.bz2" 10 0%nat 3 (world twenty_five)).2
      = trace (world twenty_five) ++ tr
      /\ last tr = Some (EvReduce (replicate 10 Byte.x2a)
                           (replicate 10 Byte.x2a) (replicate 15 Byte.x2a))
      /\ length (reduces tr) = S (length [seq 1 10])
      /\ finished tr = length <$> [seq 1 10]
      /\ closes tr = [].
Proof.
  assert (H1 : heap (world twenty_five) !! 0%nat = Some twenty_five)
    by reflexivity.
  assert (H2 : (0 < 10)%Z) by reflexivity.
  assert (Hov : Py.overflows 10 = false) by reflexivity.
  assert (H3 : Forall (fun g => length g = Z.to_nat 10) [seq 1 10]).
  { apply Forall_singleton. reflexivity. }
  assert (H4 : seq 11 15 <> []) by discriminate.
  assert (H5 : completed FeatureReader multiprocessing star (append_upto 15)
                 [seq 1 10] [] = Some (replicate 10 Byte.x2a)) by reflexivity.
  assert (H6 : FeatureReader (Py.slice_to (seq 11 15) 10) = inr (seq 11 10))
    by reflexivity.
  assert (H7 : multiprocessing (seq 11 10) star = inr (replicate 10 Byte.x2a))
    by reflexivity.
  assert (H8 : append_upto 15 (replicate 10 Byte.x2a) (replicate 10 Byte.x2a)
               = (replicate 15 Byte.x2a, Some "disk full"%string))
    by reflexivity.
  assert (H9 : length [seq 1 10] < 3) by (cbn; lia).
  do 10 (split; [assumption|]).
  exact (reducer_error_propagates FeatureReader multiprocessing st_size star
           (append_upto 15) "out.bz2" 10 0%nat _ [seq 1 10] (seq 11 15)
           (seq 11 10) (replicate 10 Byte.x2a) "disk full"%string
           (replicate 10 Byte.x2a) (replicate 15 Byte.x2a) 3
           H1 H2 Hov H3 H4 H5 H6 H7 H8 H9).
Defined.

(** The same identifiers with a reader that has no volume 16: the first
    batch is written, and the reader of the second raises. *)
Lemma reader_error_propagates_witness :
  heap (world twenty_five) !! 0%nat = Some twenty_five
  /\ (0 < 10)%Z
  /\ Py.overflows 10 = false
  /\ Forall (fun g => length g = Z.to_nat 10) [seq 1 10]
  /\ seq 11 15 <> []
  /\ completed (picky_reader 16) multiprocessing star append [seq 1 10] []
     = Some (replicate 10 Byte.x2a)
  /\ picky_reader 16 (Py.slice_to (seq 11 15) 10) = inl "no such volume"%string
  /\ length [seq 1 10] < 3
  /\ (generic_processor (picky_reader 16) multiprocessing st_size star
        append "out.bz2" 10 0%nat 3 (world twenty_five)).1
     = Raised (External "no such volume"%string)
  /\ fs (generic_processor (picky_reader 16) multiprocessing st_size star
           append "out.bz2" 10 0%nat 3 (world twenty_five)).2
       !! "out.bz2" = Some (replicate 10 Byte.x2a)
  /\ exists tr,
      trace (generic_processor (picky_reader 16) multiprocessing st_size star
               append "out.bz2" 10 0%nat 3 (world twenty_five)).2
      = trace (world twenty_five) ++ tr
      /\ last tr = Some (EvReader (Py.slice_to (seq 11 15) 10))
      /\ maps tr = [seq 1 10]
      /\ length (reduces tr) = length [seq 1 10]
      /\ closes tr = [].
Proof.
  assert (H1 : heap (world twenty_five) !! 0%nat = Some twenty_five)
    by reflexivity.
  assert (H2 : (0 < 10)%Z) by reflexivity.
  assert (Hov : Py.overflows 10 = false) by reflexivity.
  assert (H3 : Forall (fun g => length g = Z.to_nat 10) [seq 1 10]).
  { apply Forall_singleton. reflexivity. }
  assert (H4 : seq 11 15 <> []) by discriminate.
  assert (H5 : completed (picky_reader 16) multiprocessing star append
                 [seq 1 10] [] = Some (replicate 10 Byte.x2a)) by reflexivity.
  assert (H6 : picky_reader 16 (Py.slice_to (seq 11 15) 10)
               = inl "no such volume"%string) by reflexivity.
  assert (H7 : length [seq 1 10] < 3) by (cbn; lia).
  do 8 (split; [assumption|]).
  exact (reader_error_propagates (picky_reader 16) multiprocessing st_size star
           append "out.bz2" 10 0%nat _ [seq 1 10] (seq 11 15)
           "no such volume"%string (replicate 10 Byte.x2a) 3
           H1 H2 Hov H3 H4 H5 H6 H7).
Defined.

Lemma negative_batch_size_batches_witness :
  heap (world five) !! 0%nat = Some five
  /\ (-2 < 0)%Z
  /\ exists tr,
      trace (exec star "out.bz2" five (-2) 10).2 = trace (world five) ++ tr
      /\ (readers tr = []
          \/ exists k, readers tr
                       = take (length five - Z.to_nat (- -2)) five
                         :: replicate k [])
      /\ concat (readers tr) `prefix_of` take (length five - Z.to_nat (- -2)) five
      /\ (five <> [] -> (exec star "out.bz2" five (-2) 10).1 <> Done tt).
Proof.
  assert (H1 : heap (world five) !! 0%nat = Some five) by reflexivity.
  assert (H2 : (-2 < 0)%Z) by reflexivity.
  exact (conj H1 (conj H2
           (negative_batch_size_batches FeatureReader multiprocessing st_size
              star append "out.bz2" (-2) 0%nat (world five) five 10 H1 H2))).
Defined.

(** A batch size of zero in the world a first run left, where the output
    file holds five bytes: the file is emptied. *)
Lemma zero_batch_size_truncates_witness :
  heap (exec star "out.bz2" five 2 10).2 !! 0%nat = Some five
  /\ 0%Z = 0%Z
  /\ fs (exec star "out.bz2" five 2 10).2 !! "out.bz2"
     = Some (replicate 5 Byte.x2a)
  /\ (generic_processor FeatureReader multiprocessing st_size star append
        "out.bz2" 0 0%nat 10 (exec star "out.bz2" five 2 10).2).1
     = Raised ZeroDivisionError
  /\ fs (generic_processor FeatureReader multiprocessing st_size star append
           "out.bz2" 0 0%nat 10 (exec star "out.bz2" five 2 10).2).2
     = <["out.bz2" := []]> (fs (exec star "out.bz2" five 2 10).2)
  /\ heap (generic_processor FeatureReader multiprocessing st_size star append
             "out.bz2" 0 0%nat 10 (exec star "out.bz2" five 2 10).2).2
     = heap (exec star "out.bz2" five 2 10).2
  /\ ticks (generic_processor FeatureReader multiprocessing st_size star append
              "out.bz2" 0 0%nat 10 (exec star "out.bz2" five 2 10).2).2
     = ticks (exec star "out.bz2" five 2 10).2
  /\ closes (drop (length (trace (exec star "out.bz2" five 2 10).2))
               (trace (generic_processor FeatureReader multiprocessing st_size
                         star append "out.bz2" 0 0%nat 10
                         (exec star "out.bz2" five 2 10).2).2)) = [].
Proof.
  assert (H1 : heap (exec star "out.bz2" five 2 10).2 !! 0%nat = Some five)
    by reflexivity.
  assert (H3 : fs (exec star "out.bz2" five 2 10).2 !! "out.bz2"
               = Some (replicate 5 Byte.x2a)) by (vm_compute; reflexivity).
  exact (conj H1 (conj eq_refl (conj H3
           (zero_batch_size_truncates FeatureReader multiprocessing st_size star
              append "out.bz2" 0 0%nat (exec star "out.bz2" five 2 10).2 five 10
              H1 eq_refl)))).
Defined.

Lemma single_batch_witness :
  heap (world five) !! 0%nat = Some five
  /\ (0 < default_batch_size)%Z
  /\ Py.overflows default_batch_size = false
  /\ (Z.of_nat (length five) <= default_batch_size)%Z
  /\ (exec star "out.bz2" five default_batch_size 1).1 <> OutOfFuel
  /\ exists tr,
      trace (exec star "out.bz2" five default_batch_size 1).2
      = trace (world five) ++ tr
      /\ readers tr = [five].
Proof.
  assert (H1 : heap (world five) !! 0%nat = Some five) by reflexivity.
  assert (H2 : (0 < default_batch_size)%Z) by reflexivity.
  assert (Hov : Py.overflows default_batch_size = false) by reflexivity.
  assert (H3 : (Z.of_nat (length five) <= default_batch_size)%Z)
    by (vm_compute; discriminate).
  exact (conj H1 (conj H2 (conj Hov (conj H3
           (single_batch FeatureReader multiprocessing st_size star append
              "out.bz2" default_batch_size 0%nat (world five) five 0
              H1 H2 Hov H3))))).
Defined.

Lemma appending_reducer_output_witness :
  heap (world five) !! 0%nat = Some five
  /\ (forall rs c, (append rs c).1 = c ++ rs)
  /\ exists tr,
      trace (exec star "out.bz2" five 2 10).2 = trace (world five) ++ tr
      /\ fs (exec star "out.bz2" five 2 10).2 !! "out.bz2"
         = Some (concat ((fun rs => rs) <$> reduced tr)).
Proof.
  assert (H1 : heap (world five) !! 0%nat = Some five) by reflexivity.
  assert (H2 : forall rs c, (append rs c).1 = c ++ rs) by reflexivity.
  exact (conj H1 (conj H2
           (appending_reducer_output FeatureReader multiprocessing st_size star
              append "out.bz2" 2 (fun rs => rs) 0%nat (world five) five 10
              H1 H2))).
Defined.

(** A parallel map that gives the byte of every identifier and a reducer
    that appends these bytes: the file holds the bytes of 1, 2, 3, 4, 5. *)
Lemma batch_size_transparent_witness :
  heap (world five) !! 0%nat = Some five
  /\ (forall b, exists rd, FeatureReader b = inr rd
                           /\ map_bytes rd byte_of = inr (byte_of <$> b))
  /\ (forall rs c, (fun rs c => (c ++ concat ((fun r => [r]) <$> rs), None)) rs c
                   = (c ++ concat ((fun r : Byte.byte => [r]) <$> rs),
                      @None string))
  /\ (0 < 2)%Z
  /\ Py.overflows 2 = false
  /\ length five < 10
  /\ (generic_processor FeatureReader map_bytes st_size byte_of
        (fun rs c => (c ++ concat ((fun r => [r]) <$> rs), None))
        "out.bz2" 2 0%nat 10 (world five)).1 = @Done string unit tt
  /\ fs (generic_processor (E:=string) FeatureReader map_bytes st_size byte_of
           (fun rs c => (c ++ concat ((fun r => [r]) <$> rs), None))
           "out.bz2" 2 0%nat 10 (world five)).2 !! "out.bz2"
     = Some (concat ((fun p => [byte_of p]) <$> five)).
Proof.
  assert (H1 : heap (world five) !! 0%nat = Some five) by reflexivity.
  assert (H2 : forall b, exists rd, FeatureReader b = inr rd
                 /\ map_bytes rd byte_of = inr (byte_of <$> b)).
  { intros b. by exists b. }
  assert (H3 : forall (rs : list Byte.byte) (c : list Byte.byte),
             (fun rs c => (c ++ concat ((fun r => [r]) <$> rs), None)) rs c
             = (c ++ concat ((fun r : Byte.byte => [r]) <$> rs), @None string))
    by reflexivity.
  assert (H4 : (0 < 2)%Z) by reflexivity.
  assert (Hov : Py.overflows 2 = false) by reflexivity.
  assert (H5 : length five < 10) by (cbn; lia).
  exact (conj H1 (conj H2 (conj H3 (conj H4 (conj Hov (conj H5
           (batch_size_transparent FeatureReader map_bytes st_size byte_of
              (fun rs c => (c ++ concat ((fun r => [r]) <$> rs), None))
              "out.bz2" 2 byte_of (fun r => [r]) 0%nat (world five) five 10
              H1 H2 H3 H4 Hov H5))))))).
Defined.

(** A batch size of [2^1024] in the world a first run left, where the
    output file holds five bytes: the file is emptied. *)
Lemma overflowing_batch_size_truncates_witness :
  heap (exec star "out.bz2" five 2 10).2 !! 0%nat = Some five
  /\ Py.overflows (2 ^ 1024) = true
  /\ fs (exec star "out.bz2" five 2 10).2 !! "out.bz2"
     = Some (replicate 5 Byte.x2a)
  /\ (generic_processor FeatureReader multiprocessing st_size star append
        "out.bz2" (2 ^ 1024) 0%nat 10 (exec star "out.bz2" five 2 10).2).1
     = Raised OverflowError
  /\ trace (generic_processor FeatureReader multiprocessing st_size star append
              "out.bz2" (2 ^ 1024) 0%nat 10 (exec star "out.bz2" five 2 10).2).2
     = trace (exec star "out.bz2" five 2 10).2 ++ [EvOpen "out.bz2"]
  /\ fs (generic_processor FeatureReader multiprocessing st_size star append
           "out.bz2" (2 ^ 1024) 0%nat 10 (exec star "out.bz2" five 2 10).2).2
     = <["out.bz2" := []]> (fs (exec star "out.bz2" five 2 10).2)
  /\ heap (generic_processor FeatureReader multiprocessing st_size star append
             "out.bz2" (2 ^ 1024) 0%nat 10 (exec star "out.bz2" five 2 10).2).2
     = heap (exec star "out.bz2" five 2 10).2
  /\ ticks (generic_processor FeatureReader multiprocessing st_size star append
              "out.bz2" (2 ^ 1024) 0%nat 10 (exec star "out.bz2" five 2 10).2).2
     = ticks (exec star "out.bz2" five 2 10).2.
Proof.
  assert (H1 : heap (exec star "out.bz2" five 2 10).2 !! 0%nat = Some five)
    by reflexivity.
  assert (H2 : Py.overflows (2 ^ 1024) = true) by reflexivity.
  assert (H3 : fs (exec star "out.bz2" five 2 10).2 !! "out.bz2"
               = Some (replicate 5 Byte.x2a)) by (vm_compute; reflexivity).
  exact (conj H1 (conj H2 (conj H3
           (overflowing_batch_size_truncates FeatureReader multiprocessing
              st_size star append "out.bz2" (2 ^ 1024) 0%nat
              (exec star "out.bz2" five 2 10).2 five 10 H1 H2)))).
Defined.

End Instance.
